(** * Year-over-year price dashboard: a shallow embedding of [app.py]

    The dashboard loads a (Date, Price) table, derives calendar columns,
    and on every change of the two dropdowns recomputes three figures and
    a summary table.  This file embeds the data frame operations used by
    [app.py] and the callback [update_charts] with its helpers, and proves
    properties of the aggregation and chart-selection pipeline.

    Numbers.  pandas stores prices and statistics as binary64 floats.
    Two descriptions of them are used.  For the shape of the outputs,
    for signs and for directions, finite values are exact rationals
    ([Q]) and the non-finite values that the code can produce (NaN for
    an undefined statistic, the infinities for a division by zero) are
    explicit constructors of [fnum]; rounding error of binary64
    arithmetic, overflow and the sign of zero are not in this
    description, so it is not used to say which value a cell shows.
    Where a property is about that value, the operations of the
    library are parameters ([Float64.ops]), with binary64 itself as one
    instance. *)

From Stdlib Require Import String Ascii ZArith QArith Qround List Bool Lia.
From Stdlib Require Import Sorting.Sorted Sorting.Permutation DecimalString Lqa.
From Stdlib Require Import Floats Uint63.
Import ListNotations.
Open Scope Z_scope.

(** ** Calendar dates (the [Date] column after [pd.to_datetime]) *)

Record date := mkDate { d_year : Z; d_month : Z; d_day : Z }.

Definition is_leap (y : Z) : bool :=
  ((y mod 4 =? 0) && negb (y mod 100 =? 0)) || (y mod 400 =? 0).

Definition days_in_month (y m : Z) : Z :=
  if m =? 2 then (if is_leap y then 29 else 28)
  else if (m =? 4) || (m =? 6) || (m =? 9) || (m =? 11) then 30
  else 31.

(** Days of the year before the first of month [m]. *)
Definition days_before_month (y m : Z) : Z :=
  fold_right Z.add 0
    (map (days_in_month y) (map Z.of_nat (seq 1 (Z.to_nat (m - 1))))).

Definition days_before_year (y : Z) : Z :=
  let p := y - 1 in p * 365 + p / 4 - p / 100 + p / 400.

(** Proleptic Gregorian ordinal, 0001-01-01 being day 1. *)
Definition ymd2ord (y m d : Z) : Z :=
  days_before_year y + days_before_month y m + d.

Definition valid_date (t : date) : bool :=
  (1 <=? d_month t) && (d_month t <=? 12) &&
  (1 <=? d_day t) && (d_day t <=? days_in_month (d_year t) (d_month t)).

(** [dt.dayofyear] *)
Definition dayofyear (t : date) : Z :=
  days_before_month (d_year t) (d_month t) + d_day t.

(** Monday of ISO week 1 of year [y], as an ordinal. *)
Definition isoweek1monday (y : Z) : Z :=
  let firstday := ymd2ord y 1 1 in
  let firstweekday := (firstday + 6) mod 7 in
  let week1monday := firstday - firstweekday in
  if 3 <? firstweekday then week1monday + 7 else week1monday.

(** [dt.isocalendar().week] *)
Definition isoweek (t : date) : Z :=
  let y := d_year t in
  let today := ymd2ord y (d_month t) (d_day t) in
  let week := (today - isoweek1monday y) / 7 in
  if week <? 0 then (today - isoweek1monday (y - 1)) / 7 + 1
  else if (52 <=? week) && (isoweek1monday (y + 1) <=? today) then 1
  else week + 1.

(** [dt.quarter] *)
Definition quarter_of (t : date) : Z := (d_month t - 1) / 3 + 1.

Definition month_names : list string :=
  ["January"; "February"; "March"; "April"; "May"; "June"; "July";
   "August"; "September"; "October"; "November"; "December"]%string.

(** [dt.month_name()] *)
Definition month_name (t : date) : string :=
  nth (Z.to_nat (d_month t - 1)) month_names EmptyString.

(** [str(n)] for an integer. *)
Definition str_Z (n : Z) : string := NilZero.string_of_int (Z.to_int n).

Definition pad2 (n : Z) : string :=
  if n <? 10 then ("0" ++ str_Z n)%string else str_Z n.

(** [dt.strftime('%m-%d')] *)
Definition strftime_md (t : date) : string :=
  (pad2 (d_month t) ++ "-" ++ pad2 (d_day t))%string.

(** ** Numbers *)

(** A float64 value: NaN, the two infinities, or a finite value. *)
Inductive fnum : Type :=
| NaN
| PInf
| NInf
| Fin (q : Q).

(** Round half to even, the rule of [numpy.rint]. *)
Definition rint (q : Q) : Z :=
  let f := Qfloor q in
  match Qcompare (q - inject_Z f) (1 # 2) with
  | Lt => f
  | Gt => f + 1
  | Eq => if Z.even f then f else f + 1
  end.

(** [numpy.round(q, 2)]: scale by 100, round to an integer, scale back,
    here without the rounding errors of the binary64 product and
    quotient (see [Float64.b_round2] for those). *)
Definition round2 (q : Q) : Q := Qmake (rint (q * 100)) 100.

(** [.round(2)] on a float column leaves NaN and the infinities alone. *)
Definition fround2 (v : fnum) : fnum :=
  match v with
  | Fin q => Fin (round2 q)
  | _ => v
  end.

(** The integer nearest to the square root of [r >= 0], half to even. *)
Definition rint_sqrt (r : Q) : Z :=
  let a := Qnum r in
  let b := Zpos (Qden r) in
  let n := Z.sqrt (a * b) / b in
  match Z.compare (4 * a) ((2 * n + 1) * (2 * n + 1) * b) with
  | Lt => n
  | Gt => n + 1
  | Eq => if Z.even n then n else n + 1
  end.

(** [round(sqrt(v), 2)] for a variance [v]: the square root is taken
    exactly and rounded once. *)
Definition round2_sqrt (v : Q) : Q := Qmake (rint_sqrt (v * 10000)) 100.

Definition Qsign (q : Q) : comparison := Qcompare q 0.

(** float64 subtraction. *)
Definition fsub (a b : fnum) : fnum :=
  match a, b with
  | NaN, _ | _, NaN => NaN
  | PInf, PInf | NInf, NInf => NaN
  | PInf, _ | _, NInf => PInf
  | NInf, _ | _, PInf => NInf
  | Fin x, Fin y => Fin (x - y)
  end.

(** float64 multiplication. *)
Definition fmul (a b : fnum) : fnum :=
  let sgn v := match v with
               | NaN => Eq | PInf => Gt | NInf => Lt | Fin q => Qsign q
               end in
  match a, b with
  | NaN, _ | _, NaN => NaN
  | Fin x, Fin y => Fin (x * y)
  | _, _ =>
      match sgn a, sgn b with
      | Eq, _ | _, Eq => NaN
      | Gt, Gt | Lt, Lt => PInf
      | _, _ => NInf
      end
  end.

(** float64 division as numpy performs it: a zero divisor gives an
    infinity or NaN, never an exception.  Zero has no sign here, so the
    infinity takes the sign of the dividend. *)
Definition fdiv (a b : fnum) : fnum :=
  match a, b with
  | NaN, _ | _, NaN => NaN
  | Fin x, Fin y =>
      match Qsign y with
      | Eq => match Qsign x with Eq => NaN | Gt => PInf | Lt => NInf end
      | _ => Fin (x / y)
      end
  | Fin _, _ => Fin 0
  | PInf, Fin y => match Qsign y with Lt => NInf | _ => PInf end
  | NInf, Fin y => match Qsign y with Lt => PInf | _ => NInf end
  | _, _ => NaN
  end.

(** [pd.notna]: only NaN is missing. *)
Definition notna (v : fnum) : bool :=
  match v with NaN => false | _ => true end.

(** [value > 0] and [value < 0]; every comparison with NaN is false. *)
Definition fgt0 (v : fnum) : bool :=
  match v with
  | PInf => true
  | Fin q => match Qsign q with Gt => true | _ => false end
  | _ => false
  end.

Definition flt0 (v : fnum) : bool :=
  match v with
  | NInf => true
  | Fin q => match Qsign q with Lt => true | _ => false end
  | _ => false
  end.

(** ** Statistics of a price column *)

Local Open Scope Q_scope.

Definition Qsum (xs : list Q) : Q := fold_right Qplus 0%Q xs.

Definition Qlen (xs : list Q) : Q := inject_Z (Z.of_nat (length xs)).

Definition Qmin2 (a b : Q) : Q := if Qle_bool a b then a else b.
Definition Qmax2 (a b : Q) : Q := if Qle_bool a b then b else a.

(** ['mean'], as the exact quotient of sum and count. *)
Definition agg_mean (xs : list Q) : fnum :=
  match xs with
  | [] => NaN
  | _ => Fin (Qsum xs / Qlen xs)
  end.

(** ['min'] and ['max'] *)
Definition agg_min (xs : list Q) : fnum :=
  match xs with
  | [] => NaN
  | x :: t => Fin (fold_left Qmin2 t x)
  end.

Definition agg_max (xs : list Q) : fnum :=
  match xs with
  | [] => NaN
  | x :: t => Fin (fold_left Qmax2 t x)
  end.

Fixpoint Qinsert (x : Q) (l : list Q) : list Q :=
  match l with
  | [] => [x]
  | h :: t => if Qle_bool x h then x :: l else h :: Qinsert x t
  end.

Definition Qsort (l : list Q) : list Q := fold_right Qinsert [] l.

(** ['median']: the middle value, or the mean of the two middle values. *)
Definition agg_median (xs : list Q) : fnum :=
  match xs with
  | [] => NaN
  | _ =>
      let s := Qsort xs in
      let n := length xs in
      if Nat.even n
      then Fin ((nth (n / 2 - 1)%nat s 0 + nth (n / 2)%nat s 0) / 2)
      else Fin (nth (n / 2)%nat s 0)
  end.

(** Sample variance (one degree of freedom removed), for two or more
    values. *)
Definition variance (xs : list Q) : Q :=
  let m := Qsum xs / Qlen xs in
  Qsum (map (fun x => (x - m) * (x - m)) xs) / (Qlen xs - 1).

(** ['std'] followed by [.round(2)]: undefined below two values. *)
Definition agg_std_round2 (xs : list Q) : fnum :=
  match xs with
  | [] | [_] => NaN
  | _ => Fin (round2_sqrt (variance xs))
  end.

(** The volatility chart's lambda: [(x.max() - x.min()) / x.mean() * 100]. *)
Definition agg_range_percent (xs : list Q) : fnum :=
  fmul (fdiv (fsub (agg_max xs) (agg_min xs)) (agg_mean xs)) (Fin 100).

Local Close Scope Q_scope.

(** ** The data frame *)

(** One row of the loaded frame.  [Quarter] is not a column of the frame
    that [load_data] returns: [create_quarterly_chart] adds it. *)
Record Row := mkRow {
  Date : date;
  Price : Q;
  Year : Z;
  Month : Z;
  Day : Z;
  DayOfYear : Z;
  MonthName : string;
  WeekOfYear : Z;
  MonthDay : string;
  Quarter : option Z
}.

Record DataFrame := mkFrame {
  columns : list string;
  rows : list Row
}.

(** [load_data], after [pd.read_csv] has produced the (Date, Price)
    pairs of the file. *)
Definition load_row (dp : date * Q) : Row :=
  let t := fst dp in
  {| Date := t;
     Price := snd dp;
     Year := d_year t;
     Month := d_month t;
     Day := d_day t;
     DayOfYear := dayofyear t;
     MonthName := month_name t;
     WeekOfYear := isoweek t;
     MonthDay := strftime_md t;
     Quarter := None |}.

Definition load_data (csv : list (date * Q)) : DataFrame :=
  {| columns := ["Date"; "Price"; "Year"; "Month"; "Day"; "DayOfYear";
                 "MonthName"; "WeekOfYear"; "MonthDay"]%string;
     rows := map load_row csv |}.

(** *** Sorted distinct keys: [sorted(col.unique())] and the key order of
    [groupby] *)

Section SortUniq.
Context {K : Type} (cmp : K -> K -> comparison).

Fixpoint insert_uniq (k : K) (l : list K) : list K :=
  match l with
  | [] => [k]
  | h :: t =>
      match cmp k h with
      | Lt => k :: l
      | Eq => l
      | Gt => h :: insert_uniq k t
      end
  end.

Definition sort_uniq (l : list K) : list K := fold_right insert_uniq [] l.

Definition key_eqb (a b : K) : bool :=
  match cmp a b with Eq => true | _ => false end.

(** The strict order decided by [cmp]. *)
Definition klt (a b : K) : Prop := cmp a b = Lt.

(** [groupby(key)]: one group per distinct key, keys ascending, the
    rows of a group in frame order. *)
Definition groupby (key : Row -> K) (rs : list Row) : list (K * list Row) :=
  map (fun k => (k, filter (fun r => key_eqb (key r) k) rs))
      (sort_uniq (map key rs)).
End SortUniq.

Definition pair_compare (a b : Z * Z) : comparison :=
  match Z.compare (fst a) (fst b) with
  | Eq => Z.compare (snd a) (snd b)
  | c => c
  end.

(** [sorted(col.unique())] on an integer column. *)
Definition sorted_unique (l : list Z) : list Z := sort_uniq Z.compare l.

(** [available_years]: the options and the default of the year
    dropdown. *)
Definition available_years (df : DataFrame) : list Z :=
  sorted_unique (map Year (rows df)).

(** [sort_values(key)], ascending.  Rows with equal keys keep their
    order here; the library's default sort may order them otherwise. *)
Fixpoint insert_by (key : Row -> Z) (r : Row) (l : list Row) : list Row :=
  match l with
  | [] => [r]
  | h :: t => if key r <=? key h then r :: l else h :: insert_by key r t
  end.

Definition sort_values (key : Row -> Z) (rs : list Row) : list Row :=
  fold_right (insert_by key) [] rs.

(** [enumerate] *)
Definition enumerate {A : Type} (l : list A) : list (nat * A) :=
  combine (seq 0 (List.length l)) l.

(** [df[df['Year'].isin(selected_years)].copy()] *)
Definition isin (y : Z) (selected_years : list Z) : bool :=
  existsb (Z.eqb y) selected_years.

Definition filter_years (df : DataFrame) (selected_years : list Z) : DataFrame :=
  {| columns := columns df;
     rows := filter (fun r => isin (Year r) selected_years) (rows df) |}.

(** [df[df['Year'] == year]] on a list of rows. *)
Definition rows_of_year (year : Z) (rs : list Row) : list Row :=
  filter (fun r => Year r =? year) rs.

Definition prices (rs : list Row) : list Q := map Price rs.

(** ** Figures and the table *)

Inductive trace_kind := Scatter | Bar.

(** A [go.Scatter] or [go.Bar] trace; hover templates, opacity and the
    legend switches are left out. *)
Record Trace := mkTrace {
  kind : trace_kind;
  x : list Z;
  y : list fnum;
  mode : option string;
  name : string;
  line_color : option string;
  line_width : option Z;
  marker_color : option string;
  marker_size : option Z;
  error_y : option (list fnum);
  fill : option string;
  fillcolor : option string;
  yaxis : option string
}.

(** A figure: its traces, its annotations and, of the layout, the
    title and the two axis titles. *)
Record Figure := mkFigure {
  traces : list Trace;
  annotations : list string;
  title : option string;
  xaxis_title : option string;
  yaxis_title : option string
}.

(** The text of a table cell: a number passed as is, a number formatted
    with two decimals, the same followed by a percent sign, an integer,
    or a literal text. *)
Inductive content :=
| CNum (v : fnum)
| CFmt2 (v : fnum)
| CPct (v : fnum)
| CInt (n : Z)
| CText (s : string).

Inductive Cell :=
| Th (s : string)
| Td (c : content) (color : option string).

Inductive Html :=
| Div (text : string)
| Table (trs : list (list Cell)).

(** [px.colors.qualitative.Set1] *)
Definition Set1 : list string :=
  ["rgb(228,26,28)"; "rgb(55,126,184)"; "rgb(77,175,74)";
   "rgb(152,78,163)"; "rgb(255,127,0)"; "rgb(255,255,51)";
   "rgb(166,86,40)"; "rgb(247,129,191)"; "rgb(153,153,153)"]%string.

(** [colors[i % len(colors)]] *)
Definition color_at (colors : list string) (i : nat) : string :=
  nth (i mod List.length colors) colors EmptyString.

(** [str.replace(old, new)] for a non-empty [old]. *)
Fixpoint str_replace_fuel (fuel : nat) (old new s : string) : string :=
  match fuel with
  | O => s
  | S f =>
      if String.prefix old s
      then (new ++ str_replace_fuel f old new
                     (substring (String.length old)
                                (String.length s - String.length old) s))%string
      else match s with
           | EmptyString => EmptyString
           | String c t => String c (str_replace_fuel f old new t)
           end
  end.

Definition str_replace (old new s : string) : string :=
  str_replace_fuel (S (String.length s)) old new s.

(** The fill colour of a quarterly band: the line colour made
    translucent. *)
Definition translucent (c : string) : string :=
  str_replace ")" ", 0.2)" (str_replace "rgb" "rgba" c).

Definition empty_trace (k : trace_kind) : Trace :=
  {| kind := k; x := []; y := []; mode := None; name := EmptyString;
     line_color := None; line_width := None; marker_color := None;
     marker_size := None; error_y := None; fill := None; fillcolor := None;
     yaxis := None |}.

(** [go.Figure()] *)
Definition go_Figure : Figure :=
  {| traces := []; annotations := []; title := None;
     xaxis_title := None; yaxis_title := None |}.

(** ** The four main charts

    Each chart function is given with the frame as the call leaves it,
    since [create_quarterly_chart] assigns a column of its argument. *)

Definition year_key (r : Row) : Z := Year r.
Definition year_month_key (r : Row) : Z * Z := (Year r, Month r).
Definition year_week_key (r : Row) : Z * Z := (Year r, WeekOfYear r).
Definition year_quarter_key (r : Row) : Z * Z :=
  (Year r, match Quarter r with Some q => q | None => 0 end).

Definition create_overlay_chart (df : DataFrame) : DataFrame * Figure :=
  let colors := Set1 in
  let trace_of (iy : nat * Z) : Trace :=
    let (i, year) := iy in
    let year_data := sort_values DayOfYear (rows_of_year year (rows df)) in
    {| kind := Scatter;
       x := map DayOfYear year_data;
       y := map (fun r => Fin (Price r)) year_data;
       mode := Some "lines"%string;
       name := str_Z year;
       line_color := Some (color_at colors i);
       line_width := Some 2;
       marker_color := None; marker_size := None; error_y := None;
       fill := None; fillcolor := None; yaxis := None |} in
  (df,
   {| traces := map trace_of (enumerate (sorted_unique (map Year (rows df))));
      annotations := [];
      title := Some "Year-over-Year Price Comparison (Overlay by Day of Year)"%string;
      xaxis_title := Some "Day of Year"%string;
      yaxis_title := Some "Price ($)"%string |}).

(** A row of [monthly_data] after [reset_index]. *)
Record MonthlyRow := mkMonthly {
  m_Year : Z;
  m_Month : Z;
  m_AvgPrice : fnum;
  m_StdPrice : fnum
}.

Definition monthly_agg (rs : list Row) : list MonthlyRow :=
  map (fun g : Z * Z * list Row =>
         let grp := prices (snd g) in
         {| m_Year := fst (fst g);
            m_Month := snd (fst g);
            m_AvgPrice := fround2 (agg_mean grp);
            m_StdPrice := agg_std_round2 grp |})
      (groupby pair_compare year_month_key rs).

Definition create_monthly_chart (df : DataFrame) : DataFrame * Figure :=
  let monthly_data := monthly_agg (rows df) in
  let colors := Set1 in
  let trace_of (iy : nat * Z) : Trace :=
    let (i, year) := iy in
    let year_data := filter (fun m => m_Year m =? year) monthly_data in
    {| kind := Scatter;
       x := map m_Month year_data;
       y := map m_AvgPrice year_data;
       mode := Some "lines+markers"%string;
       name := str_Z year;
       line_color := Some (color_at colors i);
       line_width := Some 3;
       marker_color := None;
       marker_size := Some 8;
       error_y := Some (map m_StdPrice year_data);
       fill := None; fillcolor := None; yaxis := None |} in
  (df,
   {| traces := map trace_of
                  (enumerate (sorted_unique (map m_Year monthly_data)));
      annotations := [];
      title := Some "Monthly Average Price Comparison"%string;
      xaxis_title := Some "Month"%string;
      yaxis_title := Some "Average Price ($)"%string |}).

(** A row of [quarterly_data] after [reset_index]. *)
Record QuarterlyRow := mkQuarterly {
  q_Year : Z;
  q_Quarter : Z;
  q_AvgPrice : fnum;
  q_MinPrice : fnum;
  q_MaxPrice : fnum;
  q_StdPrice : fnum
}.

Definition quarterly_agg (rs : list Row) : list QuarterlyRow :=
  map (fun g : Z * Z * list Row =>
         let grp := prices (snd g) in
         {| q_Year := fst (fst g);
            q_Quarter := snd (fst g);
            q_AvgPrice := fround2 (agg_mean grp);
            q_MinPrice := fround2 (agg_min grp);
            q_MaxPrice := fround2 (agg_max grp);
            q_StdPrice := agg_std_round2 grp |})
      (groupby pair_compare year_quarter_key rs).

Definition set_Quarter (r : Row) : Row :=
  {| Date := Date r; Price := Price r; Year := Year r; Month := Month r;
     Day := Day r; DayOfYear := DayOfYear r; MonthName := MonthName r;
     WeekOfYear := WeekOfYear r; MonthDay := MonthDay r;
     Quarter := Some (quarter_of (Date r)) |}.

(** [df['Quarter'] = df['Date'].dt.quarter]: the column is overwritten
    when present and appended when not. *)
Definition assign_Quarter (df : DataFrame) : DataFrame :=
  {| columns := if existsb (String.eqb "Quarter") (columns df)
                then columns df
                else columns df ++ ["Quarter"%string];
     rows := map set_Quarter (rows df) |}.

Definition create_quarterly_chart (df0 : DataFrame) : DataFrame * Figure :=
  let df := assign_Quarter df0 in
  let quarterly_data := quarterly_agg (rows df) in
  let colors := Set1 in
  let traces_of (iy : nat * Z) : list Trace :=
    let (i, year) := iy in
    let year_data := filter (fun q => q_Year q =? year) quarterly_data in
    [ {| kind := Scatter;
         x := map q_Quarter year_data;
         y := map q_AvgPrice year_data;
         mode := Some "lines+markers"%string;
         name := (str_Z year ++ " Avg")%string;
         line_color := Some (color_at colors i);
         line_width := Some 3;
         marker_color := None;
         marker_size := Some 10;
         error_y := None; fill := None; fillcolor := None; yaxis := None |};
      {| kind := Scatter;
         x := map q_Quarter year_data ++ rev (map q_Quarter year_data);
         y := map q_MaxPrice year_data ++ rev (map q_MinPrice year_data);
         mode := None;
         name := (str_Z year ++ " Range")%string;
         line_color := Some "rgba(255,255,255,0)"%string;
         line_width := None;
         marker_color := None;
         marker_size := None;
         error_y := None;
         fill := Some (if (0 <? i)%nat then "tonexty" else "tozeroy")%string;
         fillcolor := Some (translucent (color_at colors i));
         yaxis := None |} ] in
  (df,
   {| traces := flat_map traces_of
                  (enumerate (sorted_unique (map q_Year quarterly_data)));
      annotations := [];
      title := Some "Quarterly Price Comparison (Average with Min/Max Range)"%string;
      xaxis_title := Some "Quarter"%string;
      yaxis_title := Some "Price ($)"%string |}).

(** A row of [weekly_data] after [reset_index]; the mean keeps the
    column name [Price]. *)
Record WeeklyRow := mkWeekly {
  w_Year : Z;
  w_WeekOfYear : Z;
  w_Price : fnum
}.

Definition weekly_agg (rs : list Row) : list WeeklyRow :=
  map (fun g : Z * Z * list Row =>
         {| w_Year := fst (fst g);
            w_WeekOfYear := snd (fst g);
            w_Price := fround2 (agg_mean (prices (snd g))) |})
      (groupby pair_compare year_week_key rs).

Definition create_weekly_chart (df : DataFrame) : DataFrame * Figure :=
  let weekly_data := weekly_agg (rows df) in
  let colors := Set1 in
  let trace_of (iy : nat * Z) : Trace :=
    let (i, year) := iy in
    let year_data := filter (fun w => w_Year w =? year) weekly_data in
    {| kind := Scatter;
       x := map w_WeekOfYear year_data;
       y := map w_Price year_data;
       mode := Some "lines"%string;
       name := str_Z year;
       line_color := Some (color_at colors i);
       line_width := Some 2;
       marker_color := None; marker_size := None; error_y := None;
       fill := None; fillcolor := None; yaxis := None |} in
  (df,
   {| traces := map trace_of
                  (enumerate (sorted_unique (map w_Year weekly_data)));
      annotations := [];
      title := Some "Weekly Average Price Patterns"%string;
      xaxis_title := Some "Week of Year"%string;
      yaxis_title := Some "Average Price ($)"%string |}).

(** ** The secondary charts; they only read the frame *)

Record StatsRow := mkStats {
  st_Year : Z;
  st_Mean : fnum;
  st_Median : fnum;
  st_Min : fnum;
  st_Max : fnum
}.

Definition stats_agg (rs : list Row) : list StatsRow :=
  map (fun g : Z * list Row =>
         let grp := prices (snd g) in
         {| st_Year := fst g;
            st_Mean := fround2 (agg_mean grp);
            st_Median := fround2 (agg_median grp);
            st_Min := fround2 (agg_min grp);
            st_Max := fround2 (agg_max grp) |})
      (groupby Z.compare year_key rs).

Definition create_summary_stats_chart (df : DataFrame) : Figure :=
  let stats := stats_agg (rows df) in
  let bar (ys : list fnum) (nm colour : string) : Trace :=
    {| kind := Bar; x := map st_Year stats; y := ys; mode := None;
       name := nm; line_color := None; line_width := None;
       marker_color := Some colour; marker_size := None; error_y := None;
       fill := None; fillcolor := None; yaxis := None |} in
  {| traces := [ bar (map st_Mean stats) "Mean" "lightblue";
                 bar (map st_Median stats) "Median" "lightgreen" ]%string;
     annotations := [];
     title := Some "Annual Price Statistics Comparison"%string;
     xaxis_title := Some "Year"%string;
     yaxis_title := Some "Price ($)"%string |}.

Record VolatilityRow := mkVolatility {
  v_Year : Z;
  v_StdDev : fnum;
  v_RangePercent : fnum
}.

Definition volatility_agg (rs : list Row) : list VolatilityRow :=
  map (fun g : Z * list Row =>
         let grp := prices (snd g) in
         {| v_Year := fst g;
            v_StdDev := agg_std_round2 grp;
            v_RangePercent := fround2 (agg_range_percent grp) |})
      (groupby Z.compare year_key rs).

Definition create_volatility_chart (df : DataFrame) : Figure :=
  let volatility := volatility_agg (rows df) in
  {| traces :=
       [ {| kind := Bar;
            x := map v_Year volatility;
            y := map v_StdDev volatility;
            mode := None;
            name := "Standard Deviation"%string;
            line_color := None; line_width := None;
            marker_color := Some "coral"%string;
            marker_size := None; error_y := None;
            fill := None; fillcolor := None;
            yaxis := Some "y"%string |};
         {| kind := Scatter;
            x := map v_Year volatility;
            y := map v_RangePercent volatility;
            mode := Some "lines+markers"%string;
            name := "Range as % of Mean"%string;
            line_color := Some "darkred"%string;
            line_width := Some 3;
            marker_color := Some "darkred"%string;
            marker_size := Some 8;
            error_y := None; fill := None; fillcolor := None;
            yaxis := Some "y2"%string |} ];
     annotations := [];
     title := Some "Price Volatility Comparison"%string;
     xaxis_title := Some "Year"%string;
     yaxis_title := Some "Standard Deviation ($)"%string |}.

(** ** The summary table *)

(** A row of [summary] after [reset_index], before the change column
    is added. *)
Record SummaryRow := mkSummary {
  s_Year : Z;
  s_Days : Z;
  s_Mean : fnum;
  s_Median : fnum;
  s_Std_Dev : fnum;
  s_Min : fnum;
  s_Max : fnum
}.

Definition summary_agg (rs : list Row) : list SummaryRow :=
  map (fun g : Z * list Row =>
         let grp := prices (snd g) in
         {| s_Year := fst g;
            s_Days := Z.of_nat (List.length grp);
            s_Mean := fround2 (agg_mean grp);
            s_Median := fround2 (agg_median grp);
            s_Std_Dev := agg_std_round2 grp;
            s_Min := fround2 (agg_min grp);
            s_Max := fround2 (agg_max grp) |})
      (groupby Z.compare year_key rs).

(** [Series.shift()]: every value moves down one place. *)
Definition shift (l : list fnum) : list fnum :=
  match l with
  | [] => []
  | _ => NaN :: removelast l
  end.

(** [Series.pct_change()]: [data / data.shift() - 1], over exact
    rationals.  The column it is applied to holds no NaN, so its forward
    fill does nothing. *)
Definition pct_change (l : list fnum) : list fnum :=
  map (fun cp : fnum * fnum => fsub (fdiv (fst cp) (snd cp)) (Fin 1))
      (combine l (shift l)).

(** The column [YoY Change (Mean)]. *)
Definition yoy_change (summary : list SummaryRow) : list fnum :=
  map fround2
      (map (fun v => fmul v (Fin 100)) (pct_change (map s_Mean summary))).

Definition YoY : string := "YoY Change (Mean)".

Definition summary_columns : list string :=
  ["Year"; "Days"; "Mean"; "Median"; "Std Dev"; "Min"; "Max"; YoY]%string.

(** What [iterrows] yields for one row: a float Series, so the integer
    columns [Year] and [Days] arrive as floats too. *)
Definition iterrow (sy : SummaryRow * fnum) : list (string * fnum) :=
  let (r, yoy) := sy in
  combine summary_columns
          [ Fin (inject_Z (s_Year r)); Fin (inject_Z (s_Days r)); s_Mean r;
            s_Median r; s_Std_Dev r; s_Min r; s_Max r; yoy ].

(** One cell of a table row.  Every value of the row is a float, so the
    branch [str(int(value))] of the source is never taken. *)
Definition render_cell (cv : string * fnum) : Cell :=
  let (col, value) := cv in
  if String.eqb col YoY && notna value then
    Td (CPct value)
       (Some (if fgt0 value then "green"
              else if flt0 value then "red" else "black")%string)
  else if notna value then Td (CFmt2 value) None
  else Td (CText "-") None.

Definition table_row (sy : SummaryRow * fnum) : list Cell :=
  let row := iterrow sy in
  match row with
  | [] => []
  | (_, year) :: rest => Td (CNum year) None :: map render_cell rest
  end.

Definition summary_with_yoy (rs : list Row) : list (SummaryRow * fnum) :=
  let summary := summary_agg rs in
  combine summary (yoy_change summary).

Definition create_summary_table (df : DataFrame) : Html :=
  let table_header := [ map Th summary_columns ] in
  let table_rows := map table_row (summary_with_yoy (rows df)) in
  Table (table_header ++ table_rows).

(** ** The callback *)

(** The helper calls made while serving one request, in order. *)
Inductive call :=
| call_filter
| call_overlay
| call_monthly
| call_quarterly
| call_weekly
| call_summary_stats
| call_volatility
| call_summary_table.

Definition outputs : Type := Figure * Figure * Figure * Html.

(** [fig.add_annotation(text=...)] *)
Definition add_annotation (fig : Figure) (text : string) : Figure :=
  {| traces := traces fig; annotations := annotations fig ++ [text];
     title := title fig; xaxis_title := xaxis_title fig;
     yaxis_title := yaxis_title fig |}.

(** [not selected_years]: the dropdown yields [None] or an empty list
    when nothing is selected. *)
Definition no_selection (selected_years : option (list Z)) : bool :=
  match selected_years with
  | None | Some [] => true
  | Some (_ :: _) => false
  end.

Definition years_of (selected_years : option (list Z)) : list Z :=
  match selected_years with Some l => l | None => [] end.

Definition is_type (comparison_type : option string) (s : string) : bool :=
  match comparison_type with
  | Some t => String.eqb t s
  | None => false
  end.

(** [update_charts] with [df] the frame loaded at start-up.  The result
    comes with the list of helper calls made. *)
Definition update_charts (df : DataFrame) (selected_years : option (list Z))
    (comparison_type : option string) : outputs * list call :=
  if no_selection selected_years then
    let empty_fig := add_annotation go_Figure "Please select at least one year" in
    ((empty_fig, empty_fig, empty_fig, Div "No data to display"), [])
  else
    let filtered_df := filter_years df (years_of selected_years) in
    let '(filtered_df, main_fig, c) :=
      if is_type comparison_type "overlay" then
        let (d, f) := create_overlay_chart filtered_df in (d, f, call_overlay)
      else if is_type comparison_type "monthly" then
        let (d, f) := create_monthly_chart filtered_df in (d, f, call_monthly)
      else if is_type comparison_type "quarterly" then
        let (d, f) := create_quarterly_chart filtered_df in (d, f, call_quarterly)
      else
        let (d, f) := create_weekly_chart filtered_df in (d, f, call_weekly) in
    let stats_fig := create_summary_stats_chart filtered_df in
    let volatility_fig := create_volatility_chart filtered_df in
    let summary_table := create_summary_table filtered_df in
    ((main_fig, stats_fig, volatility_fig, summary_table),
     [call_filter; c; call_summary_stats; call_volatility; call_summary_table]).

(** ** Vocabulary of the properties *)

(** A value with at most two decimal digits: an integer number of
    hundredths.  NaN and the infinities have no digits to round. *)
Definition two_decimals (v : fnum) : Prop :=
  match v with
  | Fin q => exists n : Z, q = Qmake n 100
  | _ => True
  end.

(** A small dataset: two observations in January 2020 and two in
    January 2021. *)
Definition sample_csv : list (date * Q) :=
  [ (mkDate 2020 1 5, 10%Q); (mkDate 2020 1 20, 20%Q);
    (mkDate 2021 1 7, 30%Q); (mkDate 2021 1 9, 50%Q) ].

Definition sample_df : DataFrame := load_data sample_csv.

(** The components of what the callback returns. *)
Definition main_chart (o : outputs * list call) : Figure :=
  fst (fst (fst (fst o))).
Definition stats_chart (o : outputs * list call) : Figure :=
  snd (fst (fst (fst o))).
Definition volatility_chart (o : outputs * list call) : Figure :=
  snd (fst (fst o)).
Definition summary_table (o : outputs * list call) : Html :=
  snd (fst o).
Definition calls (o : outputs * list call) : list call := snd o.

(** The four values offered by the comparison dropdown. *)
Definition recognized (comparison_type : option string) : bool :=
  is_type comparison_type "overlay" || is_type comparison_type "monthly"
  || is_type comparison_type "quarterly" || is_type comparison_type "weekly".

(** The figure shown when nothing is selected. *)
Definition placeholder : Figure :=
  {| traces := [];
     annotations := ["Please select at least one year"%string];
     title := None; xaxis_title := None; yaxis_title := None |}.

(** The fields of a row other than [Quarter]. *)
Definition observation (r : Row) :=
  (Date r, Price r, Year r, Month r, Day r, DayOfYear r, MonthName r,
   WeekOfYear r, MonthDay r).

(** Position of [y] in a list that holds it. *)
Fixpoint index_of (y : Z) (l : list Z) : nat :=
  match l with
  | [] => O
  | h :: t => if h =? y then O else S (index_of y t)
  end.

(** Name and line colour of the series of the year at position
    [fst iy]. *)
Definition line_key (iy : nat * Z) : string * option string :=
  (str_Z (snd iy), Some (color_at Set1 (fst iy))).

(** Name, line colour and fill colour of the two quarterly series of
    the year at position [fst iy]. *)
Definition band_keys (iy : nat * Z)
  : list (string * option string * option string) :=
  [ ((str_Z (snd iy) ++ " Avg")%string, Some (color_at Set1 (fst iy)), None);
    ((str_Z (snd iy) ++ " Range")%string, Some "rgba(255,255,255,0)"%string,
     Some (translucent (color_at Set1 (fst iy)))) ].

(** What the per-year statistics read of a group. *)
Definition year_prices (g : Z * list Row) : Z * list Q :=
  (fst g, prices (snd g)).

(** The last cell of a table row, holding the change [v]: a dash when
    [v] is undefined, otherwise the percentage coloured by its sign. *)
Definition yoy_cell (v : fnum) : Cell :=
  match v with
  | NaN => Td (CText "-") None
  | _ => Td (CPct v)
            (Some (if fgt0 v then "green"
                   else if flt0 v then "red" else "black")%string)
  end.

(** The observations of one (year, month) and of one (year, quarter). *)
Definition month_bucket (rs : list Row) (y mo : Z) : list Row :=
  filter (fun r => (Year r =? y) && (Month r =? mo)) rs.

Definition quarter_bucket (rs : list Row) (y qn : Z) : list Row :=
  filter (fun r => (Year r =? y) && (quarter_of (Date r) =? qn)) rs.

(** A year whose prices have mean zero. *)
Definition zero_mean_df : DataFrame :=
  load_data [ (mkDate 2023 3 1, (-5)%Q); (mkDate 2023 3 2, 5%Q) ].

(** ** Vocabulary of the further properties *)

(** Number of days of year [y], and of its February. *)
Definition year_length (y : Z) : Z := if is_leap y then 366 else 365.
Definition feb (y : Z) : Z := if is_leap y then 29 else 28.

(** A row whose calendar columns are those of its date, as [load_data]
    fills them for a date that exists. *)
Definition calendar_ok (r : Row) : bool :=
  valid_date (Date r) && (Year r =? d_year (Date r))
  && (Month r =? d_month (Date r)) && (Day r =? d_day (Date r))
  && (DayOfYear r =? dayofyear (Date r))
  && (WeekOfYear r =? isoweek (Date r)).

Definition well_formed (df : DataFrame) : bool :=
  forallb calendar_ok (rows df).

(** The points of a trace. *)
Definition points (t : Trace) : list (Z * fnum) := combine (x t) (y t).

(** Two finite values in order. *)
Definition fle (a b : fnum) : Prop :=
  match a, b with
  | Fin p, Fin q => (p <= q)%Q
  | _, _ => False
  end.

(** ** The value columns over the library's float64 operations

    The statistics of [agg], [.round(2)] and the arithmetic behind
    [pct_change] are functions of pandas and numpy on binary64 values.
    Where a property depends on the very value they return, they are
    taken as parameters, and the table and the bucket aggregates are
    given over them. *)

Module Float64.

Record ops : Type := mk_ops {
  num : Type;
  (** the price of a line of the file, as a float *)
  parse : Q -> num;
  nan : num;
  (** an integer column value, as a float *)
  of_Z : Z -> num;
  (** ['mean'], ['median'], ['std'], ['min'], ['max'] on a column *)
  f_mean : list num -> num;
  f_median : list num -> num;
  f_std : list num -> num;
  f_min : list num -> num;
  f_max : list num -> num;
  (** [.round(2)] *)
  f_round2 : num -> num;
  f_div : num -> num -> num;
  f_sub : num -> num -> num;
  f_mul : num -> num -> num;
  (** [pd.notna], [value > 0], [value < 0] *)
  f_notna : num -> bool;
  f_gt0 : num -> bool;
  f_lt0 : num -> bool
}.

(** NaN is missing and goes through division, subtraction,
    multiplication and rounding. *)
Definition nan_laws (o : ops) : Prop :=
  f_notna o (nan o) = false /\
  (forall a, f_div o a (nan o) = nan o) /\
  (forall b, f_sub o (nan o) b = nan o) /\
  (forall b, f_mul o (nan o) b = nan o) /\
  f_round2 o (nan o) = nan o.

(** The statistics of a column that holds one price: mean, minimum and
    maximum are that price, the standard deviation is NaN; a rounded
    price is not missing. *)
Definition single_value_laws (o : ops) : Prop :=
  (forall q, f_mean o [parse o q] = parse o q) /\
  (forall q, f_min o [parse o q] = parse o q) /\
  (forall q, f_max o [parse o q] = parse o q) /\
  (forall q, f_std o [parse o q] = nan o) /\
  f_round2 o (nan o) = nan o /\
  f_notna o (nan o) = false /\
  (forall q, f_notna o (f_round2 o (parse o q)) = true).

Section Pipeline.
Variable o : ops.

Definition prices (rs : list Row) : list (num o) :=
  map (fun r => parse o (Price r)) rs.

(** A row of [monthly_data] after [reset_index]. *)
Record MonthlyRow := mkMonthly {
  m_Year : Z;
  m_Month : Z;
  m_AvgPrice : num o;
  m_StdPrice : num o
}.

Definition monthly_agg (rs : list Row) : list MonthlyRow :=
  map (fun g : Z * Z * list Row =>
         let grp := prices (snd g) in
         {| m_Year := fst (fst g);
            m_Month := snd (fst g);
            m_AvgPrice := f_round2 o (f_mean o grp);
            m_StdPrice := f_round2 o (f_std o grp) |})
      (groupby pair_compare year_month_key rs).

(** A row of [quarterly_data] after [reset_index]. *)
Record QuarterlyRow := mkQuarterly {
  q_Year : Z;
  q_Quarter : Z;
  q_AvgPrice : num o;
  q_MinPrice : num o;
  q_MaxPrice : num o;
  q_StdPrice : num o
}.

Definition quarterly_agg (rs : list Row) : list QuarterlyRow :=
  map (fun g : Z * Z * list Row =>
         let grp := prices (snd g) in
         {| q_Year := fst (fst g);
            q_Quarter := snd (fst g);
            q_AvgPrice := f_round2 o (f_mean o grp);
            q_MinPrice := f_round2 o (f_min o grp);
            q_MaxPrice := f_round2 o (f_max o grp);
            q_StdPrice := f_round2 o (f_std o grp) |})
      (groupby pair_compare year_quarter_key rs).

(** A row of [summary] after [reset_index], before the change column
    is added. *)
Record SummaryRow := mkSummary {
  s_Year : Z;
  s_Days : Z;
  s_Mean : num o;
  s_Median : num o;
  s_Std_Dev : num o;
  s_Min : num o;
  s_Max : num o
}.

Definition summary_agg (rs : list Row) : list SummaryRow :=
  map (fun g : Z * list Row =>
         let grp := prices (snd g) in
         {| s_Year := fst g;
            s_Days := Z.of_nat (List.length grp);
            s_Mean := f_round2 o (f_mean o grp);
            s_Median := f_round2 o (f_median o grp);
            s_Std_Dev := f_round2 o (f_std o grp);
            s_Min := f_round2 o (f_min o grp);
            s_Max := f_round2 o (f_max o grp) |})
      (groupby Z.compare year_key rs).

(** [Series.shift()] *)
Definition shift (l : list (num o)) : list (num o) :=
  match l with
  | [] => []
  | _ => nan o :: removelast l
  end.

(** [Series.pct_change()]: [data / data.shift() - 1]. *)
Definition pct_change (l : list (num o)) : list (num o) :=
  map (fun cp : num o * num o => f_sub o (f_div o (fst cp) (snd cp)) (of_Z o 1))
      (combine l (shift l)).

(** The column [YoY Change (Mean)]: [pct_change() * 100], then
    [.round(2)]. *)
Definition yoy_change (summary : list SummaryRow) : list (num o) :=
  map (f_round2 o)
      (map (fun v => f_mul o v (of_Z o 100)) (pct_change (map s_Mean summary))).

Definition summary_with_yoy (rs : list Row) : list (SummaryRow * num o) :=
  let summary := summary_agg rs in
  combine summary (yoy_change summary).

(** The text of a table cell. *)
Inductive content :=
| CNum (v : num o)
| CFmt2 (v : num o)
| CPct (v : num o)
| CText (s : string).

Inductive Cell :=
| Th (s : string)
| Td (c : content) (color : option string).

(** What [iterrows] yields for one row: a float Series. *)
Definition iterrow (sy : SummaryRow * num o) : list (string * num o) :=
  let (r, yoy) := sy in
  combine summary_columns
          [ of_Z o (s_Year r); of_Z o (s_Days r); s_Mean r;
            s_Median r; s_Std_Dev r; s_Min r; s_Max r; yoy ].

Definition render_cell (cv : string * num o) : Cell :=
  let (col, value) := cv in
  if String.eqb col YoY && f_notna o value then
    Td (CPct value)
       (Some (if f_gt0 o value then "green"
              else if f_lt0 o value then "red" else "black")%string)
  else if f_notna o value then Td (CFmt2 value) None
  else Td (CText "-") None.

Definition table_row (sy : SummaryRow * num o) : list Cell :=
  let row := iterrow sy in
  match row with
  | [] => []
  | (_, year) :: rest => Td (CNum year) None :: map render_cell rest
  end.

(** The rows of the table that [create_summary_table] returns. *)
Definition create_summary_table (df : DataFrame) : list (list Cell) :=
  let table_header := [ map Th summary_columns ] in
  let table_rows := map table_row (summary_with_yoy (rows df)) in
  table_header ++ table_rows.

(** The last cell of a table row, holding the change [v]. *)
Definition yoy_cell (v : num o) : Cell :=
  if f_notna o v then
    Td (CPct v)
       (Some (if f_gt0 o v then "green"
              else if f_lt0 o v then "red" else "black")%string)
  else Td (CText "-") None.

End Pipeline.

(** *** The operations on exact rationals *)

Definition finite (xs : list fnum) : list Q :=
  flat_map (fun v => match v with Fin q => [q] | _ => [] end) xs.

Definition canonical (v : fnum) : fnum :=
  match v with Fin q => Fin (Qred q) | _ => v end.

Definition exact : ops :=
  {| num := fnum;
     parse := fun q => Fin (Qred q);
     nan := NaN;
     of_Z := fun z => Fin (inject_Z z);
     f_mean := fun xs => canonical (agg_mean (finite xs));
     f_median := fun xs => canonical (agg_median (finite xs));
     f_std := fun xs => agg_std_round2 (finite xs);
     f_min := fun xs => canonical (agg_min (finite xs));
     f_max := fun xs => canonical (agg_max (finite xs));
     f_round2 := fround2;
     f_div := fdiv;
     f_sub := fsub;
     f_mul := fmul;
     f_notna := notna;
     f_gt0 := fgt0;
     f_lt0 := flt0 |}.

(** *** The operations on binary64 values

    [numpy.round(v, 2)] is [rint(v * 100) / 100]; [rint] rounds to the
    nearest integer, ties to even, which adding and subtracting 2^52
    does below that magnitude.  Sums are taken from left to right. *)

Definition two52 : float := 4503599627370496%float.

Definition b_rint (v : float) : float :=
  let a := PrimFloat.abs v in
  if PrimFloat.ltb a two52 then
    let r := PrimFloat.sub (PrimFloat.add a two52) two52 in
    if PrimFloat.ltb v 0%float then PrimFloat.opp r else r
  else v.

Definition b_round2 (v : float) : float :=
  PrimFloat.div (b_rint (PrimFloat.mul v 100%float)) 100%float.

Definition b_of_Z (z : Z) : float :=
  match z with
  | Z0 => 0%float
  | Zpos _ => PrimFloat.of_uint63 (Uint63.of_Z z)
  | Zneg p => PrimFloat.opp (PrimFloat.of_uint63 (Uint63.of_Z (Zpos p)))
  end.

(** The float nearest to a decimal price. *)
Definition b_parse (q : Q) : float :=
  PrimFloat.div (b_of_Z (Qnum q)) (b_of_Z (Zpos (Qden q))).

Definition b_sum (xs : list float) : float :=
  fold_left PrimFloat.add xs 0%float.

Definition b_len (xs : list float) : float :=
  b_of_Z (Z.of_nat (List.length xs)).

Definition b_mean (xs : list float) : float :=
  match xs with
  | [] => PrimFloat.nan
  | _ => PrimFloat.div (b_sum xs) (b_len xs)
  end.

Definition b_min (xs : list float) : float :=
  match xs with
  | [] => PrimFloat.nan
  | v :: t => fold_left (fun a b => if PrimFloat.ltb b a then b else a) t v
  end.

Definition b_max (xs : list float) : float :=
  match xs with
  | [] => PrimFloat.nan
  | v :: t => fold_left (fun a b => if PrimFloat.ltb a b then b else a) t v
  end.

Fixpoint b_insert (v : float) (l : list float) : list float :=
  match l with
  | [] => [v]
  | h :: t => if PrimFloat.leb v h then v :: l else h :: b_insert v t
  end.

Definition b_median (xs : list float) : float :=
  match xs with
  | [] => PrimFloat.nan
  | _ =>
      let s := fold_right b_insert [] xs in
      let n := List.length xs in
      if Nat.even n
      then PrimFloat.div
             (PrimFloat.add (nth (n / 2 - 1)%nat s 0%float)
                            (nth (n / 2)%nat s 0%float))
             2%float
      else nth (n / 2)%nat s 0%float
  end.

Definition b_std (xs : list float) : float :=
  match xs with
  | [] | [_] => PrimFloat.nan
  | _ =>
      let m := b_mean xs in
      PrimFloat.sqrt
        (PrimFloat.div
           (b_sum (map (fun v => PrimFloat.mul (PrimFloat.sub v m)
                                               (PrimFloat.sub v m)) xs))
           (PrimFloat.sub (b_len xs) 1%float))
  end.

Definition binary64 : ops :=
  {| num := float;
     parse := b_parse;
     nan := PrimFloat.nan;
     of_Z := b_of_Z;
     f_mean := b_mean;
     f_median := b_median;
     f_std := b_std;
     f_min := b_min;
     f_max := b_max;
     f_round2 := b_round2;
     f_div := PrimFloat.div;
     f_sub := PrimFloat.sub;
     f_mul := PrimFloat.mul;
     f_notna := fun v => negb (PrimFloat.is_nan v);
     f_gt0 := fun v => PrimFloat.ltb 0%float v;
     f_lt0 := fun v => PrimFloat.ltb v 0%float |}.

End Float64.

(** * Properties *)

(** ** The model on concrete values *)

Example dayofyear_leap : dayofyear (mkDate 2020 12 31) = 366.
Proof. reflexivity. Qed.

Example isoweek_new_year :
  map isoweek [mkDate 2021 1 1; mkDate 2019 12 30; mkDate 2024 1 1;
               mkDate 2020 12 31; mkDate 2023 1 1; mkDate 2022 6 15]
  = [53; 1; 1; 53; 52; 24].
Proof. reflexivity. Qed.

Example strftime_md_example : strftime_md (mkDate 2021 3 7) = "03-07"%string.
Proof. reflexivity. Qed.

Example translucent_first :
  translucent (color_at Set1 9) = "rgba(228,26,28, 0.2)"%string.
Proof. reflexivity. Qed.

Local Open Scope Q_scope.

Example round2_half_even :
  map round2 [1 # 8; 3 # 8; 5 # 3; - (1 # 3)]
  = [12 # 100; 38 # 100; 167 # 100; (-33) # 100].
Proof. reflexivity. Qed.

Example std_two_values :
  agg_std_round2 [10; 20] = Fin (707 # 100) /\
  agg_std_round2 [1 # 200; - (1 # 200); 0] = Fin (0 # 100) /\
  agg_median [30; 10; 20; 50] = Fin ((20 + 30) / 2).
Proof. repeat split; reflexivity. Qed.

Local Close Scope Q_scope.

(** ** Sorted distinct keys *)

Section SortUniqFacts.
Context {K : Type} (cmp : K -> K -> comparison).
Hypothesis cmp_eq : forall a b, cmp a b = Eq <-> a = b.
Hypothesis cmp_antisym : forall a b, cmp b a = CompOpp (cmp a b).
Hypothesis cmp_trans :
  forall a b c, cmp a b = Lt -> cmp b c = Lt -> cmp a c = Lt.

Lemma key_eqb_eq a b : key_eqb cmp a b = true <-> a = b.
Proof.
  unfold key_eqb. rewrite <- cmp_eq.
  destruct (cmp a b); split; congruence.
Qed.

Lemma klt_irrefl a : ~ klt cmp a a.
Proof.
  unfold klt. intros H.
  assert (E : cmp a a = Eq) by (apply cmp_eq; reflexivity).
  congruence.
Qed.

Lemma In_insert_uniq k l x :
  In x (insert_uniq cmp k l) <-> x = k \/ In x l.
Proof.
  induction l as [|h t IH]; simpl.
  - intuition.
  - destruct (cmp k h) eqn:E; simpl.
    + apply cmp_eq in E. subst h. intuition.
    + intuition.
    + rewrite IH. intuition.
Qed.

Lemma In_sort_uniq l x : In x (sort_uniq cmp l) <-> In x l.
Proof.
  induction l as [|h t IH]; simpl.
  - reflexivity.
  - rewrite In_insert_uniq, IH. intuition.
Qed.

Lemma insert_uniq_sorted k l :
  StronglySorted (klt cmp) l -> StronglySorted (klt cmp) (insert_uniq cmp k l).
Proof.
  induction 1 as [|h t Hs IH Hh]; simpl.
  - repeat constructor.
  - destruct (cmp k h) eqn:E.
    + constructor; assumption.
    + constructor.
      * constructor; assumption.
      * constructor; [exact E|].
        rewrite Forall_forall in *. intros z Hz.
        eapply cmp_trans; [exact E | apply Hh, Hz].
    + constructor; [exact IH|].
      rewrite Forall_forall in *. intros z Hz.
      apply In_insert_uniq in Hz. destruct Hz as [-> | Hz].
      * unfold klt. rewrite cmp_antisym, E. reflexivity.
      * apply Hh, Hz.
Qed.

Lemma sort_uniq_sorted l : StronglySorted (klt cmp) (sort_uniq cmp l).
Proof.
  induction l as [|h t IH]; simpl.
  - constructor.
  - apply insert_uniq_sorted, IH.
Qed.

(** A strictly sorted list is determined by its elements. *)
Lemma sorted_ext l1 :
  forall l2, StronglySorted (klt cmp) l1 -> StronglySorted (klt cmp) l2 ->
  (forall z, In z l1 <-> In z l2) -> l1 = l2.
Proof.
  induction l1 as [|a t1 IH]; intros [|b t2] H1 H2 Hin.
  - reflexivity.
  - exfalso. apply (Hin b). left. reflexivity.
  - exfalso. apply (Hin a). left. reflexivity.
  - inversion H1 as [|? ? Hs1 Ha]; subst.
    inversion H2 as [|? ? Hs2 Hb]; subst.
    rewrite Forall_forall in Ha, Hb.
    assert (Eab : a = b).
    { destruct (proj1 (Hin a) (or_introl eq_refl)) as [E | Hat2];
        [congruence|].
      destruct (proj2 (Hin b) (or_introl eq_refl)) as [E | Hbt1];
        [congruence|].
      exfalso. apply (klt_irrefl a).
      eapply cmp_trans; [apply Ha, Hbt1 | apply Hb, Hat2]. }
    subst b. f_equal. apply IH; try assumption.
    intros z. split; intros Hz.
    + destruct (proj1 (Hin z) (or_intror Hz)) as [E | Hz2]; [|exact Hz2].
      subst z. exfalso. apply (klt_irrefl a), Ha, Hz.
    + destruct (proj2 (Hin z) (or_intror Hz)) as [E | Hz1]; [|exact Hz1].
      subst z. exfalso. apply (klt_irrefl a), Hb, Hz.
Qed.

Lemma sort_uniq_ext l1 l2 :
  (forall z, In z l1 <-> In z l2) -> sort_uniq cmp l1 = sort_uniq cmp l2.
Proof.
  intros H. apply sorted_ext; try apply sort_uniq_sorted.
  intros z. rewrite !In_sort_uniq. apply H.
Qed.

Lemma sort_uniq_of_sorted l :
  StronglySorted (klt cmp) l -> sort_uniq cmp l = l.
Proof.
  intros H. apply sorted_ext; [apply sort_uniq_sorted | exact H |].
  intros z. apply In_sort_uniq.
Qed.

(** The groups of [groupby]: one per key that occurs, holding exactly
    the rows with that key. *)
Lemma In_groupby (key : Row -> K) rs k g :
  In (k, g) (groupby cmp key rs) <->
  In k (map key rs) /\ g = filter (fun r => key_eqb cmp (key r) k) rs.
Proof.
  unfold groupby. rewrite in_map_iff. split.
  - intros [k' [E Hk]]. inversion E; subst.
    rewrite In_sort_uniq in Hk. split; [exact Hk | reflexivity].
  - intros [Hk ->]. exists k. split; [reflexivity|].
    rewrite In_sort_uniq. exact Hk.
Qed.

Lemma groupby_keys (key : Row -> K) rs :
  map fst (groupby cmp key rs) = sort_uniq cmp (map key rs).
Proof.
  unfold groupby. rewrite map_map. simpl. apply map_id.
Qed.

(** No group is empty. *)
Lemma groupby_nonempty (key : Row -> K) rs k g :
  In (k, g) (groupby cmp key rs) -> g <> [].
Proof.
  intros H. apply In_groupby in H. destruct H as [Hk ->].
  apply in_map_iff in Hk. destruct Hk as [r [E Hr]].
  intros Hnil.
  assert (Hin : In r (filter (fun r0 => key_eqb cmp (key r0) k) rs)).
  { apply filter_In. split; [exact Hr|]. apply key_eqb_eq, E. }
  rewrite Hnil in Hin. exact Hin.
Qed.
End SortUniqFacts.

(** The two orders in use. *)

Lemma Zcmp_eq : forall a b : Z, (a ?= b) = Eq <-> a = b.
Proof. intros. apply Z.compare_eq_iff. Qed.

Lemma Zcmp_antisym : forall a b : Z, (b ?= a) = CompOpp (a ?= b).
Proof. intros. apply Z.compare_antisym. Qed.

Lemma Zcmp_trans :
  forall a b c : Z, (a ?= b) = Lt -> (b ?= c) = Lt -> (a ?= c) = Lt.
Proof. intros a b c. rewrite !Z.compare_lt_iff. lia. Qed.

Lemma pair_cmp_eq : forall a b, pair_compare a b = Eq <-> a = b.
Proof.
  intros [a1 a2] [b1 b2]. unfold pair_compare. simpl.
  destruct (a1 ?= b1) eqn:E1.
  - apply Z.compare_eq_iff in E1. subst b1.
    rewrite Z.compare_eq_iff. split; congruence.
  - split; [discriminate|].
    intros E. inversion E. subst. rewrite Z.compare_refl in E1. discriminate.
  - split; [discriminate|].
    intros E. inversion E. subst. rewrite Z.compare_refl in E1. discriminate.
Qed.

Lemma pair_cmp_antisym :
  forall a b, pair_compare b a = CompOpp (pair_compare a b).
Proof.
  intros [a1 a2] [b1 b2]. unfold pair_compare. simpl.
  rewrite (Z.compare_antisym a1 b1), (Z.compare_antisym a2 b2).
  destruct (a1 ?= b1); reflexivity.
Qed.

Lemma pair_cmp_lt a b :
  pair_compare a b = Lt <->
  fst a < fst b \/ (fst a = fst b /\ snd a < snd b).
Proof.
  destruct a as [a1 a2], b as [b1 b2]. unfold pair_compare. simpl.
  destruct (Z.compare_spec a1 b1) as [E1 | E1 | E1].
  - rewrite Z.compare_lt_iff. lia.
  - split; [lia | reflexivity].
  - split; [discriminate | lia].
Qed.

Lemma pair_cmp_trans :
  forall a b c,
    pair_compare a b = Lt -> pair_compare b c = Lt -> pair_compare a c = Lt.
Proof.
  intros a b c. rewrite !pair_cmp_lt. lia.
Qed.

Lemma In_sorted_unique l z : In z (sorted_unique l) <-> In z l.
Proof. apply (In_sort_uniq Z.compare Zcmp_eq). Qed.

Lemma sorted_unique_sorted l : StronglySorted Z.lt (sorted_unique l).
Proof.
  pose proof (sort_uniq_sorted Z.compare Zcmp_eq Zcmp_antisym Zcmp_trans l) as H.
  unfold sorted_unique.
  induction H as [|a t Hs IH Ha]; constructor; [exact IH|].
  rewrite Forall_forall in *. intros z Hz. apply Z.compare_lt_iff, Ha, Hz.
Qed.

Lemma sorted_unique_ext l1 l2 :
  (forall z, In z l1 <-> In z l2) -> sorted_unique l1 = sorted_unique l2.
Proof. apply (sort_uniq_ext Z.compare Zcmp_eq Zcmp_antisym Zcmp_trans). Qed.

Lemma sorted_unique_idem l : sorted_unique (sorted_unique l) = sorted_unique l.
Proof.
  apply (sort_uniq_of_sorted Z.compare Zcmp_eq Zcmp_antisym Zcmp_trans).
  apply (sort_uniq_sorted Z.compare Zcmp_eq Zcmp_antisym Zcmp_trans).
Qed.

(** The years of a frame grouped by (year, other key) are the years of
    the frame. *)
Lemma pair_groups_years (key : Row -> Z * Z) rs :
  (forall r, fst (key r) = Year r) ->
  sorted_unique (map (fun g : Z * Z * list Row => fst (fst g))
                     (groupby pair_compare key rs))
  = sorted_unique (map Year rs).
Proof.
  intros Hkey. apply sorted_unique_ext. intros z.
  rewrite !in_map_iff. split.
  - intros [[k g] [E Hg]]. simpl in E. subst z.
    apply (In_groupby pair_compare pair_cmp_eq) in Hg.
    destruct Hg as [Hk _]. apply in_map_iff in Hk.
    destruct Hk as [r [Er Hr]]. exists r. split; [|exact Hr].
    rewrite <- Hkey, Er. reflexivity.
  - intros [r [E Hr]]. subst z.
    exists (key r, filter (fun r0 => key_eqb pair_compare (key r0) (key r)) rs).
    split; [simpl; apply Hkey|].
    apply (In_groupby pair_compare pair_cmp_eq). split; [|reflexivity].
    apply in_map. exact Hr.
Qed.

Lemma monthly_years rs :
  sorted_unique (map m_Year (monthly_agg rs)) = sorted_unique (map Year rs).
Proof.
  unfold monthly_agg. rewrite map_map. simpl.
  apply pair_groups_years. reflexivity.
Qed.

Lemma quarterly_years rs :
  sorted_unique (map q_Year (quarterly_agg rs)) = sorted_unique (map Year rs).
Proof.
  unfold quarterly_agg. rewrite map_map. simpl.
  apply pair_groups_years. reflexivity.
Qed.

Lemma weekly_years rs :
  sorted_unique (map w_Year (weekly_agg rs)) = sorted_unique (map Year rs).
Proof.
  unfold weekly_agg. rewrite map_map. simpl.
  apply pair_groups_years. reflexivity.
Qed.

Lemma Year_set_Quarter rs : map Year (map set_Quarter rs) = map Year rs.
Proof. rewrite map_map. reflexivity. Qed.

Lemma isin_In y sel : isin y sel = true <-> In y sel.
Proof.
  unfold isin. rewrite existsb_exists. split.
  - intros [z [Hz E]]. apply Z.eqb_eq in E. subst z. exact Hz.
  - intros H. exists y. split; [exact H | apply Z.eqb_refl].
Qed.

(** The years left by the filter: the selected years that occur in the
    frame. *)
Lemma In_filter_years df sel y :
  In y (map Year (rows (filter_years df sel))) <->
  In y sel /\ In y (map Year (rows df)).
Proof.
  unfold filter_years. simpl. rewrite !in_map_iff. split.
  - intros [r [E Hr]]. apply filter_In in Hr. destruct Hr as [Hr Hs].
    subst y. split; [apply isin_In, Hs | exists r; auto].
  - intros [Hs [r [E Hr]]]. exists r. split; [exact E|].
    apply filter_In. split; [exact Hr|]. subst y. apply isin_In, Hs.
Qed.

(** ** Rounding *)

Lemma rint_comp (p q : Q) : (p == q)%Q -> rint p = rint q.
Proof.
  intros E. unfold rint.
  assert (Ef : Qfloor p = Qfloor q) by (rewrite E; reflexivity).
  rewrite Ef.
  assert (Ec : ((p - inject_Z (Qfloor q)) ?= 1 # 2)%Q
               = ((q - inject_Z (Qfloor q)) ?= 1 # 2)%Q)
    by (rewrite E; reflexivity).
  rewrite Ec. reflexivity.
Qed.

Lemma round2_comp (p q : Q) : (p == q)%Q -> round2 p = round2 q.
Proof.
  intros E. unfold round2. f_equal. apply rint_comp. rewrite E. reflexivity.
Qed.

Lemma fround2_two_decimals v : two_decimals (fround2 v).
Proof.
  destruct v; simpl; auto. eexists. reflexivity.
Qed.

Lemma agg_std_round2_two_decimals xs : two_decimals (agg_std_round2 xs).
Proof.
  destruct xs as [|a [|b t]]; simpl; auto. eexists. reflexivity.
Qed.

Lemma agg_mean_Fin xs : xs <> [] -> agg_mean xs = Fin (Qsum xs / Qlen xs).
Proof. destruct xs; [congruence | reflexivity]. Qed.

Lemma prices_nonempty rs : rs <> [] -> prices rs <> [].
Proof. destruct rs; simpl; congruence. Qed.

(** ** The sample dataset *)

Example sample_monthly :
  map (fun m => (m_Year m, m_Month m, m_AvgPrice m))
      (monthly_agg (rows sample_df))
  = [ (2020, 1, Fin (1500 # 100)); (2021, 1, Fin (4000 # 100)) ].
Proof. reflexivity. Qed.

Example sample_yoy :
  map snd (summary_with_yoy (rows sample_df)) = [ NaN; Fin (16667 # 100) ].
Proof. reflexivity. Qed.

(** ** C1: the scheme dispatch *)

(** C1, as stated, fails: with the unrecognised scheme ["bogus"] and the
    year 2020 selected, the callback returns what it returns for
    ["weekly"], a weekly chart with one series, and raises nothing. *)
Lemma unrecognized_scheme_draws_weekly :
  recognized (Some "bogus"%string) = false /\
  update_charts sample_df (Some [2020]) (Some "bogus"%string)
  = update_charts sample_df (Some [2020]) (Some "weekly"%string) /\
  calls (update_charts sample_df (Some [2020]) (Some "bogus"%string))
  = [call_filter; call_weekly; call_summary_stats; call_volatility;
     call_summary_table] /\
  title (main_chart (update_charts sample_df (Some [2020]) (Some "bogus"%string)))
  = Some "Weekly Average Price Patterns"%string /\
  map name (traces (main_chart
                      (update_charts sample_df (Some [2020]) (Some "bogus"%string))))
  = ["2020"%string].
Proof. repeat split; reflexivity. Qed.

(** C1, amended: for a non-empty selection, every comparison type other
    than ['overlay'], ['monthly'] and ['quarterly'] (so ['weekly'], any
    unrecognised value, and no value at all) takes the final [else]
    branch: the callback returns the weekly chart built from the
    filtered frame, exactly as for ['weekly'].  No scheme makes the
    dispatch fail. *)
Theorem dispatch_else_is_weekly
    (df : DataFrame) (selected_years : option (list Z))
    (comparison_type : option string) :
  no_selection selected_years = false ->
  is_type comparison_type "overlay" = false ->
  is_type comparison_type "monthly" = false ->
  is_type comparison_type "quarterly" = false ->
  update_charts df selected_years comparison_type
  = update_charts df selected_years (Some "weekly"%string) /\
  main_chart (update_charts df selected_years comparison_type)
  = snd (create_weekly_chart (filter_years df (years_of selected_years))) /\
  calls (update_charts df selected_years comparison_type)
  = [call_filter; call_weekly; call_summary_stats; call_volatility;
     call_summary_table].
Proof.
  intros Hsel Ho Hm Hq. unfold update_charts.
  rewrite Hsel, Ho, Hm, Hq. simpl. repeat split; reflexivity.
Qed.

Lemma dispatch_else_is_weekly_witness :
  update_charts sample_df (Some [2021]) None
  = update_charts sample_df (Some [2021]) (Some "weekly"%string) /\
  main_chart (update_charts sample_df (Some [2021]) None)
  = snd (create_weekly_chart (filter_years sample_df (years_of (Some [2021])))) /\
  calls (update_charts sample_df (Some [2021]) None)
  = [call_filter; call_weekly; call_summary_stats; call_volatility;
     call_summary_table].
Proof.
  apply (dispatch_else_is_weekly sample_df (Some [2021]) None); reflexivity.
Defined.

(** ** C3: nothing selected *)

(** C3: with no year selected (an empty list, or no value) the three
    chart slots all receive the placeholder figure and the table slot
    the text "No data to display", whatever the dataset and the
    comparison type, and no helper is called: the frame is neither
    filtered nor grouped. *)
Theorem empty_selection_placeholders
    (df : DataFrame) (comparison_type : option string) :
  update_charts df (Some []) comparison_type
  = ((placeholder, placeholder, placeholder, Div "No data to display"), []) /\
  update_charts df None comparison_type
  = ((placeholder, placeholder, placeholder, Div "No data to display"), []).
Proof. split; reflexivity. Qed.

(** ** C2: effects of the four aggregation operations on their input *)

(** C2, as stated, fails for the quarterly operation: the frame it is
    given comes back with one more column. *)
Lemma quarterly_changes_its_input :
  fst (create_quarterly_chart (filter_years sample_df [2020]))
  <> filter_years sample_df [2020] /\
  columns (fst (create_quarterly_chart (filter_years sample_df [2020])))
  = columns (filter_years sample_df [2020]) ++ ["Quarter"%string] /\
  map Quarter (rows (filter_years sample_df [2020])) = [None; None] /\
  map Quarter (rows (fst (create_quarterly_chart (filter_years sample_df [2020]))))
  = [Some 1; Some 1].
Proof.
  split; [|repeat split; reflexivity].
  intros H. apply (f_equal columns) in H. vm_compute in H. discriminate H.
Qed.

Lemma set_Quarter_idem r : set_Quarter (set_Quarter r) = set_Quarter r.
Proof. reflexivity. Qed.

Lemma assign_Quarter_idem df :
  assign_Quarter (assign_Quarter df) = assign_Quarter df.
Proof.
  unfold assign_Quarter. cbn [columns rows]. f_equal.
  - destruct (existsb (String.eqb "Quarter") (columns df)) eqn:E.
    + rewrite E. reflexivity.
    + rewrite existsb_app, E. reflexivity.
  - rewrite map_map. apply map_ext. intros r. apply set_Quarter_idem.
Qed.

(** C2, amended: the overlay, monthly and weekly operations leave the
    frame they are given unchanged.  The quarterly operation assigns the
    column [Quarter] of the frame it is given: every column already
    there is kept, and the rows keep their order and every other field.
    Each figure is determined by the input frame; calling the quarterly
    operation again on the frame as the first call left it yields the
    same figure and leaves that frame as it is. *)
Theorem aggregation_frame_effects (df : DataFrame) :
  fst (create_overlay_chart df) = df /\
  fst (create_monthly_chart df) = df /\
  fst (create_weekly_chart df) = df /\
  fst (create_quarterly_chart df) = assign_Quarter df /\
  map observation (rows (fst (create_quarterly_chart df)))
  = map observation (rows df) /\
  incl (columns df) (columns (fst (create_quarterly_chart df))) /\
  create_quarterly_chart (fst (create_quarterly_chart df))
  = create_quarterly_chart df.
Proof.
  repeat split.
  - simpl. rewrite map_map. reflexivity.
  - cbn [create_quarterly_chart fst assign_Quarter columns].
    destruct (existsb (String.eqb "Quarter") (columns df)).
    + apply incl_refl.
    + apply incl_appl, incl_refl.
  - unfold create_quarterly_chart. simpl fst.
    rewrite assign_Quarter_idem. reflexivity.
Qed.

(** ** C5: two decimals *)

(** C5: every numeric field of a monthly, quarterly or weekly aggregate
    row, and of a summary row with its year-over-year change, has at
    most two decimal digits (the count of days is an integer). *)
Theorem aggregates_rounded_to_two_decimals (rs : list Row) :
  Forall (fun m => two_decimals (m_AvgPrice m) /\ two_decimals (m_StdPrice m))
         (monthly_agg rs) /\
  Forall (fun q => two_decimals (q_AvgPrice q) /\ two_decimals (q_MinPrice q) /\
                   two_decimals (q_MaxPrice q) /\ two_decimals (q_StdPrice q))
         (quarterly_agg rs) /\
  Forall (fun w => two_decimals (w_Price w)) (weekly_agg rs) /\
  Forall (fun sy : SummaryRow * fnum =>
            two_decimals (s_Mean (fst sy)) /\ two_decimals (s_Median (fst sy)) /\
            two_decimals (s_Std_Dev (fst sy)) /\ two_decimals (s_Min (fst sy)) /\
            two_decimals (s_Max (fst sy)) /\ two_decimals (snd sy))
         (summary_with_yoy rs).
Proof.
  repeat split; apply Forall_forall.
  - intros m Hm. apply in_map_iff in Hm. destruct Hm as [g [<- _]]. simpl.
    split; [apply fround2_two_decimals | apply agg_std_round2_two_decimals].
  - intros q Hq. apply in_map_iff in Hq. destruct Hq as [g [<- _]]. simpl.
    repeat split;
      try apply fround2_two_decimals; apply agg_std_round2_two_decimals.
  - intros w Hw. apply in_map_iff in Hw. destruct Hw as [g [<- _]]. simpl.
    apply fround2_two_decimals.
  - intros [s v] Hsv. unfold summary_with_yoy in Hsv.
    pose proof (in_combine_l _ _ _ _ Hsv) as Hs.
    pose proof (in_combine_r _ _ _ _ Hsv) as Hv.
    apply in_map_iff in Hs. destruct Hs as [g [<- _]].
    apply in_map_iff in Hv. destruct Hv as [u [<- _]]. simpl.
    repeat split;
      try apply fround2_two_decimals; apply agg_std_round2_two_decimals.
Qed.

(** ** C6: the year filter *)

(** C6: after the filter, the rows passed through to the overlay chart
    and the rows of the monthly, quarterly and weekly aggregates belong
    to selected years only, and only to years that occur in the
    dataset: a selected year without observations adds no row, and
    nothing else happens on its account. *)
Theorem aggregates_only_selected_years
    (df : DataFrame) (selected_years : list Z) (y : Z) :
  let filtered_df := filter_years df selected_years in
  In y (map Year (rows (fst (create_overlay_chart filtered_df)))) \/
  In y (map m_Year (monthly_agg (rows filtered_df))) \/
  In y (map q_Year (quarterly_agg (rows (assign_Quarter filtered_df)))) \/
  In y (map w_Year (weekly_agg (rows filtered_df))) ->
  In y selected_years /\ In y (map Year (rows df)).
Proof.
  intros filtered_df H. apply (In_filter_years df selected_years y).
  fold filtered_df.
  destruct H as [H | [H | [H | H]]].
  - exact H.
  - rewrite <- In_sorted_unique, monthly_years, In_sorted_unique in H. exact H.
  - rewrite <- In_sorted_unique, quarterly_years, In_sorted_unique in H. simpl in H.
    rewrite Year_set_Quarter in H. exact H.
  - rewrite <- In_sorted_unique, weekly_years, In_sorted_unique in H. exact H.
Qed.

Lemma aggregates_only_selected_years_witness :
  In 2021 [2021; 2099] /\ In 2021 (map Year (rows sample_df)).
Proof.
  apply (aggregates_only_selected_years sample_df [2021; 2099] 2021).
  right. left. vm_compute. left. reflexivity.
Defined.

(** ** C7: series colours *)

(** C7, as stated, fails: the dataset has the years 2020 and 2021 and
    the selection is 2019 and 2021.  2021 is second in the sorted
    selection, yet its series takes the first palette colour. *)
Lemma color_index_skips_absent_years :
  map (fun t => (name t, line_color t))
      (traces (main_chart (update_charts sample_df (Some [2019; 2021])
                                         (Some "overlay"%string))))
  = [ ("2021"%string, Some "rgb(228,26,28)"%string) ] /\
  index_of 2021 (sorted_unique [2019; 2021]) = 1%nat /\
  color_at Set1 (index_of 2021 (sorted_unique [2019; 2021]))
  = "rgb(55,126,184)"%string.
Proof. repeat split; reflexivity. Qed.

Lemma main_chart_overlay df a l :
  main_chart (update_charts df (Some (a :: l)) (Some "overlay"%string))
  = snd (create_overlay_chart (filter_years df (a :: l))).
Proof. reflexivity. Qed.

Lemma main_chart_monthly df a l :
  main_chart (update_charts df (Some (a :: l)) (Some "monthly"%string))
  = snd (create_monthly_chart (filter_years df (a :: l))).
Proof. reflexivity. Qed.

Lemma main_chart_quarterly df a l :
  main_chart (update_charts df (Some (a :: l)) (Some "quarterly"%string))
  = snd (create_quarterly_chart (filter_years df (a :: l))).
Proof. reflexivity. Qed.

Lemma main_chart_weekly df a l :
  main_chart (update_charts df (Some (a :: l)) (Some "weekly"%string))
  = snd (create_weekly_chart (filter_years df (a :: l))).
Proof. reflexivity. Qed.

Lemma overlay_colors df :
  map (fun t => (name t, line_color t)) (traces (snd (create_overlay_chart df)))
  = map line_key (enumerate (sorted_unique (map Year (rows df)))).
Proof.
  unfold create_overlay_chart. cbn [snd traces]. rewrite map_map.
  apply map_ext. intros [i y]. reflexivity.
Qed.

Lemma monthly_colors df :
  map (fun t => (name t, line_color t)) (traces (snd (create_monthly_chart df)))
  = map line_key (enumerate (sorted_unique (map Year (rows df)))).
Proof.
  unfold create_monthly_chart. cbn [snd traces].
  rewrite monthly_years, map_map.
  apply map_ext. intros [i y]. reflexivity.
Qed.

Lemma weekly_colors df :
  map (fun t => (name t, line_color t)) (traces (snd (create_weekly_chart df)))
  = map line_key (enumerate (sorted_unique (map Year (rows df)))).
Proof.
  unfold create_weekly_chart. cbn [snd traces].
  rewrite weekly_years, map_map.
  apply map_ext. intros [i y]. reflexivity.
Qed.

Lemma map_flat_map_ext {A B C : Type} (f : B -> C) (g : A -> list B)
    (h : A -> list C) (l : list A) :
  (forall a, map f (g a) = h a) -> map f (flat_map g l) = flat_map h l.
Proof.
  intros H. induction l as [|a t IH]; simpl.
  - reflexivity.
  - rewrite map_app, H, IH. reflexivity.
Qed.

Lemma quarterly_colors df :
  map (fun t => (name t, line_color t, fillcolor t))
      (traces (snd (create_quarterly_chart df)))
  = flat_map band_keys (enumerate (sorted_unique (map Year (rows df)))).
Proof.
  unfold create_quarterly_chart. cbn [snd traces].
  rewrite quarterly_years. cbn [assign_Quarter rows].
  rewrite Year_set_Quarter.
  apply map_flat_map_ext. intros [i y]. reflexivity.
Qed.

(** C7, amended: for a non-empty selection and each of the four
    schemes, the main chart has its series in ascending order of the
    years that are both selected and present in the dataset; the series
    of the year at position [i] of that list is drawn in the palette
    entry [i mod (palette length)].  The quarterly band of that year is
    filled with the same entry made translucent. *)
Theorem series_color_by_position
    (df : DataFrame) (selected_years : list Z) :
  selected_years <> [] ->
  let years :=
    sorted_unique (map Year (rows (filter_years df selected_years))) in
  let chart scheme :=
    main_chart (update_charts df (Some selected_years) (Some scheme)) in
  StronglySorted Z.lt years /\
  (forall y, In y years <->
             In y selected_years /\ In y (map Year (rows df))) /\
  (forall i, color_at Set1 i = nth (i mod 9) Set1 EmptyString) /\
  map (fun t => (name t, line_color t)) (traces (chart "overlay"%string))
  = map line_key (enumerate years) /\
  map (fun t => (name t, line_color t)) (traces (chart "monthly"%string))
  = map line_key (enumerate years) /\
  map (fun t => (name t, line_color t)) (traces (chart "weekly"%string))
  = map line_key (enumerate years) /\
  map (fun t => (name t, line_color t, fillcolor t))
      (traces (chart "quarterly"%string))
  = flat_map band_keys (enumerate years).
Proof.
  intros Hsel years chart. subst chart.
  destruct selected_years as [|a l]; [congruence|].
  split; [apply sorted_unique_sorted|].
  split; [intros y; unfold years; rewrite In_sorted_unique;
          apply In_filter_years|].
  split; [reflexivity|].
  cbv beta.
  rewrite main_chart_overlay, main_chart_monthly, main_chart_weekly,
    main_chart_quarterly.
  rewrite overlay_colors, monthly_colors, weekly_colors, quarterly_colors.
  repeat split; reflexivity.
Qed.

Lemma series_color_by_position_witness :
  map (fun t => (name t, line_color t))
      (traces (main_chart (update_charts sample_df (Some [2021; 2020])
                                         (Some "monthly"%string))))
  = [ ("2020"%string, Some "rgb(228,26,28)"%string);
      ("2021"%string, Some "rgb(55,126,184)"%string) ].
Proof.
  assert (Hsel : [2021; 2020] <> []) by discriminate.
  destruct (series_color_by_position sample_df [2021; 2020] Hsel)
    as (_ & _ & _ & _ & Hm & _).
  exact Hm.
Defined.

(** ** The secondary outputs read years and prices only *)

Lemma prices_filter_set_Quarter (f : Row -> bool) rs :
  (forall r, f (set_Quarter r) = f r) ->
  prices (filter f (map set_Quarter rs)) = prices (filter f rs).
Proof.
  intros Hf. induction rs as [|r t IH]; simpl.
  - reflexivity.
  - rewrite Hf. destruct (f r); simpl; rewrite IH; reflexivity.
Qed.

Lemma year_groups_set_Quarter rs :
  map year_prices (groupby Z.compare year_key (map set_Quarter rs))
  = map year_prices (groupby Z.compare year_key rs).
Proof.
  unfold groupby. rewrite !map_map.
  replace (map year_key (map set_Quarter rs)) with (map year_key rs)
    by (rewrite map_map; reflexivity).
  apply map_ext. intros k. unfold year_prices. simpl. f_equal.
  apply prices_filter_set_Quarter. reflexivity.
Qed.

Lemma by_year_prices {B : Type} (h : Z * list Q -> B) rs :
  map (fun g => h (year_prices g))
      (groupby Z.compare year_key (map set_Quarter rs))
  = map (fun g => h (year_prices g)) (groupby Z.compare year_key rs).
Proof.
  rewrite <- !(map_map year_prices h), year_groups_set_Quarter. reflexivity.
Qed.

Lemma stats_agg_set_Quarter rs :
  stats_agg (map set_Quarter rs) = stats_agg rs.
Proof.
  exact (by_year_prices
           (fun yp => {| st_Year := fst yp;
                         st_Mean := fround2 (agg_mean (snd yp));
                         st_Median := fround2 (agg_median (snd yp));
                         st_Min := fround2 (agg_min (snd yp));
                         st_Max := fround2 (agg_max (snd yp)) |}) rs).
Qed.

Lemma volatility_agg_set_Quarter rs :
  volatility_agg (map set_Quarter rs) = volatility_agg rs.
Proof.
  exact (by_year_prices
           (fun yp => {| v_Year := fst yp;
                         v_StdDev := agg_std_round2 (snd yp);
                         v_RangePercent :=
                           fround2 (agg_range_percent (snd yp)) |}) rs).
Qed.

Lemma summary_agg_set_Quarter rs :
  summary_agg (map set_Quarter rs) = summary_agg rs.
Proof.
  exact (by_year_prices
           (fun yp => {| s_Year := fst yp;
                         s_Days := Z.of_nat (List.length (snd yp));
                         s_Mean := fround2 (agg_mean (snd yp));
                         s_Median := fround2 (agg_median (snd yp));
                         s_Std_Dev := agg_std_round2 (snd yp);
                         s_Min := fround2 (agg_min (snd yp));
                         s_Max := fround2 (agg_max (snd yp)) |}) rs).
Qed.

Lemma secondary_after_quarterly df :
  create_summary_stats_chart (fst (create_quarterly_chart df))
  = create_summary_stats_chart df /\
  create_volatility_chart (fst (create_quarterly_chart df))
  = create_volatility_chart df /\
  create_summary_table (fst (create_quarterly_chart df))
  = create_summary_table df.
Proof.
  unfold create_summary_stats_chart, create_volatility_chart,
    create_summary_table, summary_with_yoy.
  cbn [create_quarterly_chart fst assign_Quarter rows].
  rewrite stats_agg_set_Quarter, volatility_agg_set_Quarter,
    summary_agg_set_Quarter.
  repeat split; reflexivity.
Qed.

(** Whatever the comparison type, the three secondary outputs are built
    from the filtered frame. *)
Lemma secondary_outputs df a l comparison_type :
  let o := update_charts df (Some (a :: l)) comparison_type in
  let filtered_df := filter_years df (a :: l) in
  stats_chart o = create_summary_stats_chart filtered_df /\
  volatility_chart o = create_volatility_chart filtered_df /\
  summary_table o = create_summary_table filtered_df.
Proof.
  intros o filtered_df. subst o. unfold update_charts.
  cbn [no_selection years_of]. fold filtered_df.
  destruct (is_type comparison_type "overlay");
    [repeat split; reflexivity|].
  destruct (is_type comparison_type "monthly");
    [repeat split; reflexivity|].
  destruct (is_type comparison_type "quarterly");
    [|repeat split; reflexivity].
  exact (secondary_after_quarterly filtered_df).
Qed.

(** ** The change column *)

Lemma summary_years rs :
  map s_Year (summary_agg rs) = sorted_unique (map Year rs).
Proof.
  unfold summary_agg. rewrite map_map. simpl.
  exact (groupby_keys Z.compare year_key rs).
Qed.

Lemma summary_mean_Fin rs r :
  In r (summary_agg rs) -> exists q, s_Mean r = Fin q.
Proof.
  intros H. apply in_map_iff in H. destruct H as [[k g] [<- Hg]]. simpl.
  apply (groupby_nonempty Z.compare Zcmp_eq) in Hg.
  rewrite (agg_mean_Fin _ (prices_nonempty _ Hg)). simpl. eexists. reflexivity.
Qed.

Lemma combine_removelast {A B : Type} (t : list A) :
  forall (a : B) (u : list B),
    List.length u = List.length t ->
    combine t (removelast (a :: u)) = combine t (a :: u).
Proof.
  induction t as [|x t IH]; intros a u Hlen.
  - reflexivity.
  - destruct u as [|b u]; [discriminate|].
    change (removelast (a :: b :: u)) with (a :: removelast (b :: u)).
    simpl combine. f_equal. apply IH. simpl in Hlen. lia.
Qed.

(** The change column, one row after the other. *)
Lemma pct_change_cons a t :
  pct_change (a :: t)
  = NaN :: map (fun cp : fnum * fnum => fsub (fdiv (fst cp) (snd cp)) (Fin 1))
               (combine t (a :: t)).
Proof.
  unfold pct_change, shift.
  change (combine (a :: t) (NaN :: removelast (a :: t)))
    with ((a, NaN) :: combine t (removelast (a :: t))).
  rewrite (combine_removelast t a t eq_refl). simpl.
  destruct a; reflexivity.
Qed.

Lemma pct_change_length l : List.length (pct_change l) = List.length l.
Proof.
  destruct l as [|a t]; [reflexivity|].
  rewrite pct_change_cons. simpl. rewrite length_map, length_combine.
  simpl. lia.
Qed.

Lemma nth_error_adjacent {A : Type} (t : list A) :
  forall a i m1 m2,
    nth_error (a :: t) i = Some m1 ->
    nth_error (a :: t) (S i) = Some m2 ->
    nth_error (combine t (a :: t)) i = Some (m2, m1).
Proof.
  induction t as [|b t IH]; intros a i m1 m2 H1 H2.
  - destruct i; discriminate.
  - destruct i as [|i].
    + simpl in *. congruence.
    + simpl combine. simpl nth_error.
      apply IH; [exact H1 | exact H2].
Qed.

Lemma pct_change_nth ms i m1 m2 :
  nth_error ms i = Some m1 ->
  nth_error ms (S i) = Some m2 ->
  nth_error (pct_change ms) (S i) = Some (fsub (fdiv m2 m1) (Fin 1)).
Proof.
  intros H1 H2. destruct ms as [|a t]; [destruct i; discriminate|].
  rewrite pct_change_cons. simpl nth_error.
  rewrite nth_error_map, (nth_error_adjacent t a i m1 m2 H1 H2).
  reflexivity.
Qed.

Lemma Qsign_zero_sub (a b : Q) : Qsign b = Eq -> Qsign (a - b) = Qsign a.
Proof.
  unfold Qsign. intros Hb. apply Qeq_alt in Hb.
  assert (E : (a - b == a)%Q) by (rewrite Hb; ring).
  rewrite E. reflexivity.
Qed.

(** [pct_change] computes [cur / prev - 1]; times 100 and rounded it is
    the relative difference [(cur - prev) / prev * 100], rounded. *)
Lemma yoy_formula (cur prev : Q) :
  fround2 (fmul (fsub (fdiv (Fin cur) (Fin prev)) (Fin 1)) (Fin 100))
  = fround2 (fmul (fdiv (fsub (Fin cur) (Fin prev)) (Fin prev)) (Fin 100)).
Proof.
  cbn [fsub fdiv].
  destruct (Qsign prev) eqn:Hp.
  - rewrite (Qsign_zero_sub cur prev Hp).
    destruct (Qsign cur); reflexivity.
  - cbn [fsub fmul fround2]. f_equal. apply round2_comp.
    assert (Hnz : ~ (prev == 0)%Q).
    { intros E. unfold Qsign in Hp. rewrite E in Hp. discriminate. }
    field. exact Hnz.
  - cbn [fsub fmul fround2]. f_equal. apply round2_comp.
    assert (Hnz : ~ (prev == 0)%Q).
    { intros E. unfold Qsign in Hp. rewrite E in Hp. discriminate. }
    field. exact Hnz.
Qed.

Lemma yoy_formula_nonzero (cur prev : Q) :
  ~ (prev == 0)%Q ->
  fround2 (fmul (fdiv (fsub (Fin cur) (Fin prev)) (Fin prev)) (Fin 100))
  = Fin (round2 ((cur - prev) / prev * 100)).
Proof.
  intros Hnz. cbn [fsub fdiv].
  destruct (Qsign prev) eqn:Hp; [|reflexivity|reflexivity].
  exfalso. apply Hnz. apply Qeq_alt. exact Hp.
Qed.

Lemma yoy_change_length summary :
  List.length (yoy_change summary) = List.length summary.
Proof.
  unfold yoy_change. rewrite !length_map, pct_change_length, length_map.
  reflexivity.
Qed.

Lemma summary_with_yoy_fst rs :
  map fst (summary_with_yoy rs) = summary_agg rs.
Proof.
  unfold summary_with_yoy.
  pose proof (yoy_change_length (summary_agg rs)) as Hlen.
  revert Hlen. generalize (yoy_change (summary_agg rs)) as ys.
  induction (summary_agg rs) as [|s t IH]; intros ys Hlen.
  - reflexivity.
  - destruct ys as [|v ys]; [discriminate|]. simpl. f_equal.
    apply IH. simpl in Hlen. lia.
Qed.

Lemma nth_error_combine {A B : Type} (l1 : list A) :
  forall (l2 : list B) i a b,
    nth_error (combine l1 l2) i = Some (a, b) ->
    nth_error l1 i = Some a /\ nth_error l2 i = Some b.
Proof.
  induction l1 as [|x t IH]; intros l2 i a b H.
  - destruct i; discriminate.
  - destruct l2 as [|y u]; [destruct i; discriminate|].
    destruct i as [|i]; simpl in *.
    + inversion H. auto.
    + apply IH, H.
Qed.

(** ** Buckets and their keys *)

Lemma pair_key_eqb (a b : Z * Z) :
  key_eqb pair_compare a b = (fst a =? fst b) && (snd a =? snd b).
Proof.
  destruct a as [a1 a2], b as [b1 b2]. unfold key_eqb, pair_compare. simpl.
  destruct (Z.compare_spec a1 b1) as [E | E | E].
  - subst b1. rewrite Z.eqb_refl. simpl.
    destruct (Z.compare_spec a2 b2) as [F | F | F].
    + subst b2. rewrite Z.eqb_refl. reflexivity.
    + symmetry. apply Z.eqb_neq. lia.
    + symmetry. apply Z.eqb_neq. lia.
  - replace (a1 =? b1) with false by (symmetry; apply Z.eqb_neq; lia).
    reflexivity.
  - replace (a1 =? b1) with false by (symmetry; apply Z.eqb_neq; lia).
    reflexivity.
Qed.

Lemma filter_map_comm {A B : Type} (f : B -> bool) (h : A -> B) (l : list A) :
  filter f (map h l) = map h (filter (fun a => f (h a)) l).
Proof.
  induction l as [|a t IH]; simpl; [reflexivity|].
  destruct (f (h a)); simpl; rewrite IH; reflexivity.
Qed.

(** ** C9: the volatility chart *)

Lemma Qmin2_le_r (a h : Q) : (Qmin2 a h <= h)%Q.
Proof.
  unfold Qmin2. destruct (Qle_bool a h) eqn:E.
  - apply Qle_bool_iff, E.
  - apply Qle_refl.
Qed.

Lemma Qmax2_ge_r (b h : Q) : (h <= Qmax2 b h)%Q.
Proof.
  unfold Qmax2. destruct (Qle_bool b h) eqn:E.
  - apply Qle_refl.
  - apply Qlt_le_weak, Qnot_le_lt. intros H.
    apply Qle_bool_iff in H. congruence.
Qed.

Lemma fold_min_le_max (t : list Q) :
  forall a b, (a <= b)%Q -> (fold_left Qmin2 t a <= fold_left Qmax2 t b)%Q.
Proof.
  induction t as [|h t IH]; intros a b Hab; simpl.
  - exact Hab.
  - apply IH. eapply Qle_trans; [apply Qmin2_le_r | apply Qmax2_ge_r].
Qed.

Lemma year_key_eqb (a b : Z) : key_eqb Z.compare a b = (a =? b).
Proof.
  unfold key_eqb. destruct (Z.compare_spec a b) as [E | E | E].
  - subst b. symmetry. apply Z.eqb_refl.
  - symmetry. apply Z.eqb_neq. lia.
  - symmetry. apply Z.eqb_neq. lia.
Qed.

(** The range-percent column, year by year. *)
Lemma volatility_range_column rs :
  map v_RangePercent (volatility_agg rs)
  = map (fun yr => fround2 (agg_range_percent (prices (rows_of_year yr rs))))
        (sorted_unique (map Year rs)).
Proof.
  unfold volatility_agg, groupby. rewrite !map_map. simpl.
  apply map_ext. intros k. do 3 f_equal. unfold rows_of_year.
  apply filter_ext. intros r. apply year_key_eqb.
Qed.

Lemma volatility_year_column rs :
  map v_Year (volatility_agg rs) = sorted_unique (map Year rs).
Proof.
  unfold volatility_agg. rewrite map_map. simpl.
  exact (groupby_keys Z.compare year_key rs).
Qed.

(** The lambda of the volatility chart on the prices of one year: the
    three statistics are finite and the division always has a value. *)
Lemma range_percent_total (xs : list Q) :
  xs <> [] ->
  exists mn mx mean : Q,
    agg_min xs = Fin mn /\ agg_max xs = Fin mx /\ agg_mean xs = Fin mean /\
    (mn <= mx)%Q /\
    (~ (mean == 0)%Q ->
     agg_range_percent xs = Fin ((mx - mn) / mean * 100)) /\
    ((mean == 0)%Q -> (mn < mx)%Q -> agg_range_percent xs = PInf) /\
    ((mean == 0)%Q -> (mn == mx)%Q -> agg_range_percent xs = NaN).
Proof.
  intros Hne. destruct xs as [|a t]; [congruence|].
  exists (fold_left Qmin2 t a), (fold_left Qmax2 t a),
         (Qsum (a :: t) / Qlen (a :: t))%Q.
  pose proof (fold_min_le_max t a a (Qle_refl a)) as Hle.
  unfold agg_range_percent.
  cbn [agg_min agg_max agg_mean fsub fdiv].
  set (mn := fold_left Qmin2 t a) in *.
  set (mx := fold_left Qmax2 t a) in *.
  set (mean := (Qsum (a :: t) / Qlen (a :: t))%Q).
  repeat split; try reflexivity; try exact Hle.
  - intros Hnz. destruct (Qsign mean) eqn:Hs; [|reflexivity|reflexivity].
    exfalso. apply Hnz. apply Qeq_alt. exact Hs.
  - intros Hz Hlt.
    assert (Hs : Qsign mean = Eq) by (apply Qeq_alt; exact Hz).
    rewrite Hs.
    assert (Hd : Qsign (mx - mn) = Gt).
    { unfold Qsign. apply Qgt_alt. unfold Qminus.
      rewrite <- (Qplus_opp_r mn). apply Qplus_lt_l. exact Hlt. }
    rewrite Hd. reflexivity.
  - intros Hz Heq.
    assert (Hs : Qsign mean = Eq) by (apply Qeq_alt; exact Hz).
    rewrite Hs.
    assert (Hd : Qsign (mx - mn) = Eq).
    { unfold Qsign. apply Qeq_alt. rewrite Heq. ring. }
    rewrite Hd. reflexivity.
Qed.

(** C9: for a non-empty selection the callback returns three figures
    and a table, whatever the comparison type.  The volatility figure
    has its bar series and its line series; the line has one point per
    year of the filtered frame, the rounded range-as-percent-of-mean of
    that year's prices.  That value always exists: it is
    (max - min) / mean * 100 when the mean is not zero, and with a zero
    mean the division yields an infinity (max above min) or NaN
    (max equal to min) instead of failing. *)
Theorem volatility_always_computed
    (df : DataFrame) (selected_years : list Z)
    (comparison_type : option string) :
  selected_years <> [] ->
  let filtered_df := filter_years df selected_years in
  let o := update_charts df (Some selected_years) comparison_type in
  let years := sorted_unique (map Year (rows filtered_df)) in
  (exists bars line,
      traces (volatility_chart o) = [bars; line] /\
      x line = years /\
      y line
      = map (fun yr =>
               fround2 (agg_range_percent
                          (prices (rows_of_year yr (rows filtered_df)))))
            years) /\
  (exists trs, summary_table o = Table trs) /\
  (forall yr, In yr years ->
     exists mn mx mean : Q,
       let xs := prices (rows_of_year yr (rows filtered_df)) in
       agg_min xs = Fin mn /\ agg_max xs = Fin mx /\ agg_mean xs = Fin mean /\
       (mn <= mx)%Q /\
       (~ (mean == 0)%Q ->
        agg_range_percent xs = Fin ((mx - mn) / mean * 100)) /\
       ((mean == 0)%Q -> (mn < mx)%Q -> agg_range_percent xs = PInf) /\
       ((mean == 0)%Q -> (mn == mx)%Q -> agg_range_percent xs = NaN)).
Proof.
  intros Hsel filtered_df o years.
  destruct selected_years as [|a l]; [congruence|].
  destruct (secondary_outputs df a l comparison_type) as (Hst & Hv & Ht).
  fold o in Hst, Hv, Ht. fold filtered_df in Hst, Hv, Ht.
  split; [|split].
  - rewrite Hv. unfold create_volatility_chart. cbn [traces].
    eexists _, _. split; [reflexivity|]. cbn [x y]. split.
    + apply volatility_year_column.
    + apply volatility_range_column.
  - rewrite Ht. eexists. reflexivity.
  - intros yr Hyr. apply range_percent_total, prices_nonempty.
    unfold years in Hyr. rewrite In_sorted_unique in Hyr.
    apply in_map_iff in Hyr. destruct Hyr as [r [E Hr]].
    intros Hnil.
    assert (Hin : In r (rows_of_year yr (rows filtered_df))).
    { apply filter_In. split; [exact Hr | apply Z.eqb_eq, E]. }
    rewrite Hnil in Hin. exact Hin.
Qed.

Lemma volatility_always_computed_witness :
  exists line,
    In line (traces (volatility_chart
                       (update_charts zero_mean_df (Some [2023]) None))) /\
    x line = [2023] /\ y line = [PInf].
Proof.
  assert (Hsel : [2023] <> []) by discriminate.
  destruct (volatility_always_computed zero_mean_df [2023] None Hsel)
    as ((bars & line & Htr & Hx & Hy) & _).
  exists line. split; [rewrite Htr; right; left; reflexivity|].
  split; [rewrite Hx | rewrite Hy]; reflexivity.
Defined.

(** ** C10: a selection without any observation *)

Lemma filter_years_absent df selected_years :
  (forall y, In y selected_years -> ~ In y (map Year (rows df))) ->
  rows (filter_years df selected_years) = [].
Proof.
  intros H. unfold filter_years. cbn [rows].
  induction (rows df) as [|r t IH]; [reflexivity|].
  simpl. destruct (isin (Year r) selected_years) eqn:E.
  - exfalso. apply isin_In in E. apply (H _ E). left. reflexivity.
  - apply IH. intros y Hy Hin. apply (H y Hy). right. exact Hin.
Qed.

(** C10, as stated, fails on "zero series": with only the year 2099
    selected, which has no observation, the two secondary charts still
    hold their two series each, without points. *)
Lemma secondary_charts_keep_their_series :
  let o := update_charts sample_df (Some [2099]) (Some "overlay"%string) in
  traces (main_chart o) = [] /\
  map (fun t => (name t, x t, y t)) (traces (stats_chart o))
  = [ ("Mean"%string, [], []); ("Median"%string, [], []) ] /\
  map (fun t => (name t, x t, y t)) (traces (volatility_chart o))
  = [ ("Standard Deviation"%string, [], []);
      ("Range as % of Mean"%string, [], []) ].
Proof. repeat split; reflexivity. Qed.

Lemma main_chart_title df a l comparison_type :
  title (main_chart (update_charts df (Some (a :: l)) comparison_type)) <> None.
Proof.
  unfold update_charts. cbn [no_selection years_of].
  destruct (is_type comparison_type "overlay"); [discriminate|].
  destruct (is_type comparison_type "monthly"); [discriminate|].
  destruct (is_type comparison_type "quarterly"); discriminate.
Qed.

Lemma main_chart_absent df a l comparison_type :
  rows (filter_years df (a :: l)) = [] ->
  let o := update_charts df (Some (a :: l)) comparison_type in
  traces (main_chart o) = [] /\ annotations (main_chart o) = [] /\
  List.length (calls o) = 5%nat.
Proof.
  intros Hrows o. subst o. unfold update_charts. cbn [no_selection years_of].
  destruct (is_type comparison_type "overlay").
  { unfold main_chart, calls.
    cbn [create_overlay_chart fst snd traces annotations].
    rewrite Hrows. repeat split; reflexivity. }
  destruct (is_type comparison_type "monthly").
  { unfold main_chart, calls.
    cbn [create_monthly_chart fst snd traces annotations].
    rewrite Hrows. repeat split; reflexivity. }
  destruct (is_type comparison_type "quarterly").
  { unfold main_chart, calls.
    cbn [create_quarterly_chart fst snd traces annotations assign_Quarter
         rows].
    rewrite Hrows. repeat split; reflexivity. }
  unfold main_chart, calls.
  cbn [create_weekly_chart fst snd traces annotations].
  rewrite Hrows. repeat split; reflexivity.
Qed.

(** C10, amended: for a non-empty selection the callback never returns
    the placeholder outputs.  When none of the selected years occurs in
    the dataset it still makes its usual calls: the main chart has no
    series, the series of the two secondary charts (mean and median
    bars; standard-deviation bars and range line) have no points, no
    figure carries the placeholder annotation, and the table consists
    of the header row alone, with no "No data to display" marker. *)
Theorem absent_years_give_empty_outputs
    (df : DataFrame) (selected_years : list Z)
    (comparison_type : option string) :
  selected_years <> [] ->
  let o := update_charts df (Some selected_years) comparison_type in
  (main_chart o <> placeholder /\ stats_chart o <> placeholder /\
   volatility_chart o <> placeholder /\
   summary_table o <> Div "No data to display") /\
  ((forall y, In y selected_years -> ~ In y (map Year (rows df))) ->
   traces (main_chart o) = [] /\
   map (fun t => (name t, x t, y t)) (traces (stats_chart o))
   = [ ("Mean"%string, [], []); ("Median"%string, [], []) ] /\
   map (fun t => (name t, x t, y t)) (traces (volatility_chart o))
   = [ ("Standard Deviation"%string, [], []);
       ("Range as % of Mean"%string, [], []) ] /\
   annotations (main_chart o) = [] /\
   annotations (stats_chart o) = [] /\
   annotations (volatility_chart o) = [] /\
   summary_table o = Table [ map Th summary_columns ] /\
   List.length (calls o) = 5%nat).
Proof.
  intros Hsel o.
  destruct selected_years as [|a l]; [congruence|].
  destruct (secondary_outputs df a l comparison_type) as (Hst & Hv & Ht).
  fold o in Hst, Hv, Ht.
  split.
  - repeat split.
    + intros E. apply (f_equal title) in E.
      exact (main_chart_title df a l comparison_type E).
    + rewrite Hst. discriminate.
    + rewrite Hv. discriminate.
    + rewrite Ht. discriminate.
  - intros Habsent.
    pose proof (filter_years_absent df (a :: l) Habsent) as Hrows.
    destruct (main_chart_absent df a l comparison_type Hrows)
      as (Hm1 & Hm2 & Hm3).
    fold o in Hm1, Hm2, Hm3.
    rewrite Hst, Hv, Ht.
    unfold create_summary_stats_chart, create_volatility_chart,
      create_summary_table, summary_with_yoy.
    rewrite Hrows.
    repeat split; try assumption; reflexivity.
Qed.

Lemma absent_years_give_empty_outputs_witness :
  summary_table (update_charts sample_df (Some [2019; 2099])
                               (Some "quarterly"%string))
  = Table [ map Th summary_columns ].
Proof.
  assert (Hsel : [2019; 2099] <> []) by discriminate.
  assert (Habsent : forall y, In y [2019; 2099] ->
                              ~ In y (map Year (rows sample_df))).
  { intros y [<- | [<- | []]] Hin; vm_compute in Hin;
      repeat (destruct Hin as [Hin | Hin]; [discriminate Hin|]);
      exact Hin. }
  exact (proj1 (proj2 (proj2 (proj2 (proj2 (proj2 (proj2
           (proj2 (absent_years_give_empty_outputs sample_df [2019; 2099]
                     (Some "quarterly"%string) Hsel) Habsent)))))))).
Defined.

(** ** C4: the summary table, over the library's float64 operations *)

Lemma f64_summary_years (o : Float64.ops) (rs : list Row) :
  map (Float64.s_Year o) (Float64.summary_agg o rs)
  = sorted_unique (map Year rs).
Proof.
  unfold Float64.summary_agg. rewrite map_map. cbn [Float64.s_Year].
  exact (groupby_keys Z.compare year_key rs).
Qed.

Lemma f64_pct_change_cons (o : Float64.ops) (a : Float64.num o)
    (t : list (Float64.num o)) :
  Float64.pct_change o (a :: t)
  = Float64.f_sub o (Float64.f_div o a (Float64.nan o)) (Float64.of_Z o 1)
    :: map (fun cp : Float64.num o * Float64.num o =>
              Float64.f_sub o (Float64.f_div o (fst cp) (snd cp))
                            (Float64.of_Z o 1))
           (combine t (a :: t)).
Proof.
  unfold Float64.pct_change, Float64.shift.
  change (combine (a :: t) (Float64.nan o :: removelast (a :: t)))
    with ((a, Float64.nan o) :: combine t (removelast (a :: t))).
  rewrite (combine_removelast t a t eq_refl). reflexivity.
Qed.

Lemma f64_pct_change_length (o : Float64.ops) (l : list (Float64.num o)) :
  List.length (Float64.pct_change o l) = List.length l.
Proof.
  destruct l as [|a t]; [reflexivity|].
  rewrite f64_pct_change_cons. cbn [List.length].
  rewrite length_map, length_combine. cbn [List.length]. lia.
Qed.

Lemma f64_pct_change_nth (o : Float64.ops) (ms : list (Float64.num o))
    (i : nat) (m1 m2 : Float64.num o) :
  nth_error ms i = Some m1 ->
  nth_error ms (S i) = Some m2 ->
  nth_error (Float64.pct_change o ms) (S i)
  = Some (Float64.f_sub o (Float64.f_div o m2 m1) (Float64.of_Z o 1)).
Proof.
  intros H1 H2. destruct ms as [|a t]; [destruct i; discriminate|].
  rewrite f64_pct_change_cons. cbn [nth_error].
  rewrite nth_error_map, (nth_error_adjacent t a i m1 m2 H1 H2).
  reflexivity.
Qed.

Lemma f64_yoy_change_length (o : Float64.ops)
    (summary : list (Float64.SummaryRow o)) :
  List.length (Float64.yoy_change o summary) = List.length summary.
Proof.
  unfold Float64.yoy_change.
  rewrite !length_map, f64_pct_change_length, length_map. reflexivity.
Qed.

Lemma f64_summary_with_yoy_fst (o : Float64.ops) (rs : list Row) :
  map fst (Float64.summary_with_yoy o rs) = Float64.summary_agg o rs.
Proof.
  unfold Float64.summary_with_yoy.
  pose proof (f64_yoy_change_length o (Float64.summary_agg o rs)) as Hlen.
  revert Hlen. generalize (Float64.yoy_change o (Float64.summary_agg o rs)).
  induction (Float64.summary_agg o rs) as [|s t IH]; intros ys Hlen.
  - reflexivity.
  - destruct ys as [|v ys]; [discriminate|]. cbn [combine map fst].
    f_equal. apply IH. cbn [List.length] in Hlen. lia.
Qed.

Lemma f64_prices_filter_set_Quarter (o : Float64.ops) (f : Row -> bool) rs :
  (forall r, f (set_Quarter r) = f r) ->
  Float64.prices o (filter f (map set_Quarter rs))
  = Float64.prices o (filter f rs).
Proof.
  intros Hf. unfold Float64.prices.
  induction rs as [|r t IH]; [reflexivity|].
  cbn [map filter]. rewrite Hf.
  destruct (f r); cbn [map]; rewrite IH; reflexivity.
Qed.

(** The table does not see the column that the quarterly chart adds. *)
Lemma f64_summary_agg_set_Quarter (o : Float64.ops) (rs : list Row) :
  Float64.summary_agg o (map set_Quarter rs) = Float64.summary_agg o rs.
Proof.
  unfold Float64.summary_agg, groupby. rewrite !map_map.
  replace (map year_key (map set_Quarter rs)) with (map year_key rs)
    by (rewrite map_map; reflexivity).
  apply map_ext. intros k. cbn [fst snd].
  rewrite f64_prices_filter_set_Quarter; reflexivity.
Qed.

Lemma f64_table_row_yoy (o : Float64.ops)
    (r : Float64.SummaryRow o) (v : Float64.num o) :
  nth_error (Float64.table_row o (r, v)) 7 = Some (Float64.yoy_cell o v).
Proof.
  unfold Float64.table_row, Float64.iterrow, summary_columns.
  cbn [combine map nth_error]. unfold Float64.render_cell, Float64.yoy_cell.
  rewrite String.eqb_refl. cbn [andb].
  destruct (Float64.f_notna o v); reflexivity.
Qed.

(** C4, as stated, fails in three ways.  A selected year without
    observations has no row: with 2020 and 2099 selected and no
    observation in 2099, the table has a single body row, for 2020.
    The change is taken from the means as the table shows them, rounded:
    with one observation of 1.004 in 2020 and one of 2 in 2021 the
    table shows the means 1.00 and 2.00 and the change 100.00, where
    the year's own means give 99.20.  And the change is computed in
    binary64: for the means 8.00 and 8.03 the table shows 0.37, where
    (8.03 - 8) / 8 * 100 = 0.375 rounds to 0.38. *)
Lemma summary_table_contradicts_claim :
  (In 2099 [2020; 2099] /\
   map (fun sy : SummaryRow * fnum => s_Year (fst sy))
       (summary_with_yoy (rows (filter_years sample_df [2020; 2099])))
   = [2020] /\
   map (fun sy => Float64.s_Year Float64.binary64 (fst sy))
       (Float64.summary_with_yoy Float64.binary64
          (rows (filter_years sample_df [2020; 2099])))
   = [2020]) /\
  (let df := load_data [ (mkDate 2020 6 1, (1004 # 1000)%Q);
                         (mkDate 2021 6 1, 2%Q) ] in
   map (fun sy => (Float64.s_Mean Float64.binary64 (fst sy), snd sy))
       (Float64.summary_with_yoy Float64.binary64 (rows df))
   = [ (Float64.b_parse 1, PrimFloat.nan);
       (Float64.b_parse 2, Float64.b_parse 100) ] /\
   Float64.b_round2
     (PrimFloat.mul
        (PrimFloat.div
           (PrimFloat.sub (Float64.b_parse 2)
                          (Float64.b_parse (1004 # 1000)))
           (Float64.b_parse (1004 # 1000)))
        (Float64.b_parse 100))
   = Float64.b_parse (9920 # 100) /\
   PrimFloat.eqb (Float64.b_parse 100) (Float64.b_parse (9920 # 100)) = false) /\
  (let df := load_data [ (mkDate 2020 6 1, 8%Q);
                         (mkDate 2021 6 1, (803 # 100)%Q) ] in
   map (fun sy => (Float64.s_Mean Float64.binary64 (fst sy), snd sy))
       (Float64.summary_with_yoy Float64.binary64 (rows df))
   = [ (Float64.b_parse 8, PrimFloat.nan);
       (Float64.b_parse (803 # 100), Float64.b_parse (37 # 100)) ] /\
   (((803 # 100) - 8) / 8 * 100 == 375 # 1000)%Q /\
   round2 (375 # 1000) = (38 # 100)%Q /\
   PrimFloat.eqb (Float64.b_parse (37 # 100)) (Float64.b_parse (38 # 100))
   = false).
Proof.
  split; [|split].
  - split; [right; left; reflexivity|]. split; reflexivity.
  - cbv zeta. split; [vm_compute; reflexivity|].
    split; vm_compute; reflexivity.
  - cbv zeta. split; [vm_compute; reflexivity|].
    split; [reflexivity|]. split; [reflexivity|]. vm_compute. reflexivity.
Qed.

(** C4, amended: for a non-empty selection the summary table has, after
    its header, one row per selected year that occurs in the dataset,
    in ascending order of year, whether or not the frame carries the
    column of the quarterly chart.  The change of the first row is
    undefined and shown as "-".  In every later row the change is
    [round((mean / previous mean - 1) * 100, 2)], computed with the
    library's float64 division, subtraction, multiplication and
    rounding on the means of the two rows as the table holds them,
    rounded; its cell is "-" when the change is NaN, and otherwise
    green when the change is above zero, red when below, black when
    neither. *)
Theorem summary_table_yoy
    (o : Float64.ops) (df : DataFrame) (selected_years : list Z) :
  Float64.nan_laws o ->
  selected_years <> [] ->
  let filtered_df := filter_years df selected_years in
  let summary := Float64.summary_with_yoy o (rows filtered_df) in
  let years := map (fun sy => Float64.s_Year o (fst sy)) summary in
  Float64.create_summary_table o filtered_df
  = map (Float64.Th o) summary_columns :: map (Float64.table_row o) summary /\
  Float64.create_summary_table o (fst (create_quarterly_chart filtered_df))
  = Float64.create_summary_table o filtered_df /\
  StronglySorted Z.lt years /\
  (forall y, In y years <->
             In y selected_years /\ In y (map Year (rows df))) /\
  (forall r v,
      nth_error summary 0 = Some (r, v) ->
      v = Float64.nan o /\
      nth_error (Float64.table_row o (r, v)) 7
      = Some (Float64.Td o (Float64.CText o "-") None)) /\
  (forall i r1 v1 r2 v2,
      nth_error summary i = Some (r1, v1) ->
      nth_error summary (S i) = Some (r2, v2) ->
      v2 = Float64.f_round2 o
             (Float64.f_mul o
                (Float64.f_sub o
                   (Float64.f_div o (Float64.s_Mean o r2)
                                    (Float64.s_Mean o r1))
                   (Float64.of_Z o 1))
                (Float64.of_Z o 100)) /\
      nth_error (Float64.table_row o (r2, v2)) 7
      = Some (Float64.yoy_cell o v2)).
Proof.
  intros (Lna & Ldiv & Lsub & Lmul & Lround) Hsel filtered_df summary years.
  assert (Hyears : years = sorted_unique (map Year (rows filtered_df))).
  { unfold years, summary.
    rewrite <- (map_map fst (Float64.s_Year o)).
    rewrite f64_summary_with_yoy_fst. apply f64_summary_years. }
  split; [reflexivity|].
  split.
  { unfold Float64.create_summary_table, Float64.summary_with_yoy.
    cbn [create_quarterly_chart fst assign_Quarter rows].
    rewrite f64_summary_agg_set_Quarter. reflexivity. }
  split; [rewrite Hyears; apply sorted_unique_sorted|].
  split.
  { intros y. rewrite Hyears, In_sorted_unique. apply In_filter_years. }
  split.
  { intros r v H0. unfold summary, Float64.summary_with_yoy in H0.
    apply nth_error_combine in H0. destruct H0 as [Hr Hv].
    destruct (Float64.summary_agg o (rows filtered_df)) as [|s t];
      [discriminate|].
    unfold Float64.yoy_change in Hv. cbn [map] in Hv.
    rewrite f64_pct_change_cons in Hv. cbn [map nth_error] in Hv.
    rewrite Ldiv, Lsub, Lmul, Lround in Hv. inversion Hv. subst v.
    split; [reflexivity|].
    rewrite f64_table_row_yoy. unfold Float64.yoy_cell. rewrite Lna.
    reflexivity. }
  intros i r1 v1 r2 v2 H1 H2.
  unfold summary, Float64.summary_with_yoy in H1, H2.
  apply nth_error_combine in H1. destruct H1 as [Hr1 _].
  apply nth_error_combine in H2. destruct H2 as [Hr2 Hv2].
  split; [|apply f64_table_row_yoy].
  unfold Float64.yoy_change in Hv2. rewrite !nth_error_map in Hv2.
  rewrite (f64_pct_change_nth o _ i (Float64.s_Mean o r1)
             (Float64.s_Mean o r2)) in Hv2.
  - cbn [option_map] in Hv2. inversion Hv2. reflexivity.
  - rewrite nth_error_map, Hr1. reflexivity.
  - rewrite nth_error_map, Hr2. reflexivity.
Qed.

Lemma exact_nan_laws : Float64.nan_laws Float64.exact.
Proof.
  unfold Float64.nan_laws. cbn.
  repeat split; try reflexivity; intros v; destruct v; reflexivity.
Qed.

Lemma summary_table_yoy_witness :
  Float64.nan_laws Float64.exact /\
  [2021; 2020] <> [] /\
  map (fun sy => (Float64.s_Year Float64.exact (fst sy),
                  Float64.s_Mean Float64.exact (fst sy), snd sy))
      (Float64.summary_with_yoy Float64.exact
         (rows (filter_years sample_df [2021; 2020])))
  = [ (2020, Fin (1500 # 100), NaN);
      (2021, Fin (4000 # 100), Fin (16667 # 100)) ] /\
  Fin (16667 # 100)
  = fround2 (fmul (fsub (fdiv (Fin (4000 # 100)) (Fin (1500 # 100)))
                        (Fin (inject_Z 1)))
                  (Fin (inject_Z 100))).
Proof.
  assert (Hsel : [2021; 2020] <> []) by discriminate.
  split; [exact exact_nan_laws|]. split; [exact Hsel|].
  split; [reflexivity|].
  destruct (summary_table_yoy Float64.exact sample_df [2021; 2020]
              exact_nan_laws Hsel)
    as (_ & _ & _ & _ & _ & Hrows).
  exact (proj1 (Hrows 0%nat _ NaN _ (Fin (16667 # 100)) eq_refl eq_refl)).
Defined.

(** ** C8: buckets with a single observation, over the library's
    float64 operations *)

(** C8, as stated, fails: the only observation of the first quarter of
    2022 is priced 10.123, and the bucket's min, max and mean are all
    10.12, not the price; that of the second quarter is priced 8.345
    and they are all 8.35. *)
Lemma single_observation_is_rounded :
  let df := load_data [ (mkDate 2022 2 14, (10123 # 1000)%Q);
                        (mkDate 2022 5 3, (8345 # 1000)%Q) ] in
  Float64.quarterly_agg Float64.binary64
    (rows (fst (create_quarterly_chart df)))
  = [ Float64.mkQuarterly Float64.binary64 2022 1
        (Float64.b_parse (1012 # 100)) (Float64.b_parse (1012 # 100))
        (Float64.b_parse (1012 # 100)) PrimFloat.nan;
      Float64.mkQuarterly Float64.binary64 2022 2
        (Float64.b_parse (835 # 100)) (Float64.b_parse (835 # 100))
        (Float64.b_parse (835 # 100)) PrimFloat.nan ] /\
  PrimFloat.eqb (Float64.b_parse (1012 # 100)) (Float64.b_parse (10123 # 1000))
  = false /\
  PrimFloat.eqb (Float64.b_parse (835 # 100)) (Float64.b_parse (8345 # 1000))
  = false.
Proof. cbv zeta. repeat split; vm_compute; reflexivity. Qed.

(** C8, amended: a (year, month) bucket with fewer than two
    observations holds exactly one; its monthly mean is defined, equal
    to that observation's price as the library's [round(2)] returns
    it, and its standard deviation is undefined (NaN).  A
    (year, quarter) bucket with a single observation has min, max and
    mean all equal to that observation's price as the library's
    [round(2)] returns it, and an undefined standard deviation. *)
Theorem single_observation_bucket (o : Float64.ops) (df : DataFrame) :
  Float64.single_value_laws o ->
  (forall m, In m (Float64.monthly_agg o (rows df)) ->
     (List.length (month_bucket (rows df) (Float64.m_Year o m)
                                (Float64.m_Month o m)) < 2)%nat ->
     exists r,
       month_bucket (rows df) (Float64.m_Year o m) (Float64.m_Month o m)
       = [r] /\
       Float64.m_AvgPrice o m
       = Float64.f_round2 o (Float64.parse o (Price r)) /\
       Float64.f_notna o (Float64.m_AvgPrice o m) = true /\
       Float64.m_StdPrice o m = Float64.nan o /\
       Float64.f_notna o (Float64.m_StdPrice o m) = false) /\
  (forall q r,
     In q (Float64.quarterly_agg o (rows (fst (create_quarterly_chart df)))) ->
     quarter_bucket (rows df) (Float64.q_Year o q) (Float64.q_Quarter o q)
     = [r] ->
     Float64.q_MinPrice o q = Float64.f_round2 o (Float64.parse o (Price r)) /\
     Float64.q_MaxPrice o q = Float64.f_round2 o (Float64.parse o (Price r)) /\
     Float64.q_AvgPrice o q = Float64.f_round2 o (Float64.parse o (Price r)) /\
     Float64.q_StdPrice o q = Float64.nan o /\
     Float64.f_notna o (Float64.q_StdPrice o q) = false).
Proof.
  intros (Lmean & Lmin & Lmax & Lstd & Lround & Lna & Ldef). split.
  - intros m Hm Hlen.
    apply in_map_iff in Hm. destruct Hm as [[[y mo] g] [<- Hg]].
    cbn [Float64.m_Year Float64.m_Month Float64.m_AvgPrice
         Float64.m_StdPrice fst snd] in *.
    pose proof (groupby_nonempty _ pair_cmp_eq _ _ _ _ Hg) as Hne.
    apply (In_groupby pair_compare pair_cmp_eq) in Hg. destruct Hg as [_ Eg].
    assert (Eb : g = month_bucket (rows df) y mo).
    { rewrite Eg. unfold month_bucket. apply filter_ext. intros r.
      apply pair_key_eqb. }
    rewrite <- Eb in *.
    destruct g as [|r [|r' t]]; [congruence | | cbn in Hlen; lia].
    exists r. cbn [Float64.prices map].
    rewrite Lmean, Lstd, Lround, Lna, Ldef. repeat split; reflexivity.
  - intros q r Hq Hb.
    apply in_map_iff in Hq. destruct Hq as [[[y qn] g] [<- Hg]].
    cbn [Float64.q_Year Float64.q_Quarter fst snd] in *.
    apply (In_groupby pair_compare pair_cmp_eq) in Hg. destruct Hg as [_ Eg].
    cbn [create_quarterly_chart fst assign_Quarter rows] in Eg.
    rewrite filter_map_comm in Eg.
    assert (Eb : g = map set_Quarter [r]).
    { rewrite Eg, <- Hb. f_equal. unfold quarter_bucket. apply filter_ext.
      intros r0. apply pair_key_eqb. }
    clear Eg. subst g.
    cbn [map Float64.prices Price set_Quarter Float64.q_MinPrice
         Float64.q_MaxPrice Float64.q_AvgPrice Float64.q_StdPrice].
    rewrite Lmean, Lmin, Lmax, Lstd, Lround, Lna. repeat split; reflexivity.
Qed.

Lemma Qred_twice (q : Q) : Qred (Qred q) = Qred q.
Proof. apply Qred_complete, Qred_correct. Qed.

Lemma exact_single_value_laws : Float64.single_value_laws Float64.exact.
Proof.
  unfold Float64.single_value_laws.
  cbv [Float64.f_mean Float64.f_min Float64.f_max Float64.f_std
       Float64.f_round2 Float64.f_notna Float64.parse Float64.nan
       Float64.exact Float64.num].
  repeat split; try reflexivity; intros q;
    cbv [Float64.finite flat_map app agg_mean agg_min agg_max fold_left
         Float64.canonical].
  - f_equal. apply Qred_complete.
    unfold Qsum. cbn [fold_right]. change (Qlen [Qred q]) with 1%Q.
    rewrite (Qred_correct q). field.
  - f_equal. apply Qred_twice.
  - f_equal. apply Qred_twice.
Qed.

Lemma single_observation_bucket_witness :
  Float64.single_value_laws Float64.exact /\
  Float64.q_MinPrice Float64.exact
    (Float64.mkQuarterly Float64.exact 2020 1
       (Fin (1000 # 100)) (Fin (1000 # 100)) (Fin (1000 # 100)) NaN)
  = fround2 (Fin (Qred 10)).
Proof.
  split; [exact exact_single_value_laws|].
  pose (df := load_data [ (mkDate 2020 1 5, 10%Q); (mkDate 2021 1 7, 30%Q) ]).
  refine (proj1 (proj2 (single_observation_bucket Float64.exact df
                          exact_single_value_laws)
                       (Float64.mkQuarterly Float64.exact 2020 1
                          (Fin (1000 # 100)) (Fin (1000 # 100))
                          (Fin (1000 # 100)) NaN)
                       (load_row (mkDate 2020 1 5, 10%Q)) _ _)).
  - left. reflexivity.
  - reflexivity.
Defined.

(** * Further properties of the code *)

(** ** Calendar columns of [load_data] *)

Lemma valid_date_bounds (t : date) :
  valid_date t = true ->
  1 <= d_month t <= 12 /\
  1 <= d_day t <= days_in_month (d_year t) (d_month t).
Proof.
  unfold valid_date. rewrite !andb_true_iff, !Z.leb_le. lia.
Qed.

Lemma month_cases (m : Z) :
  1 <= m <= 12 ->
  m = 1 \/ m = 2 \/ m = 3 \/ m = 4 \/ m = 5 \/ m = 6 \/
  m = 7 \/ m = 8 \/ m = 9 \/ m = 10 \/ m = 11 \/ m = 12.
Proof. lia. Qed.

Lemma days_in_month_table (y : Z) :
  days_in_month y 1 = 31 /\
  days_in_month y 2 = feb y /\
  days_in_month y 3 = 31 /\
  days_in_month y 4 = 30 /\
  days_in_month y 5 = 31 /\
  days_in_month y 6 = 30 /\
  days_in_month y 7 = 31 /\
  days_in_month y 8 = 31 /\
  days_in_month y 9 = 30 /\
  days_in_month y 10 = 31 /\
  days_in_month y 11 = 30 /\
  days_in_month y 12 = 31.
Proof. repeat split; reflexivity. Qed.

Lemma days_before_month_table (y : Z) :
  days_before_month y 1 = 0 /\
  days_before_month y 2 = 31 /\
  days_before_month y 3 = 31 + feb y /\
  days_before_month y 4 = 62 + feb y /\
  days_before_month y 5 = 92 + feb y /\
  days_before_month y 6 = 123 + feb y /\
  days_before_month y 7 = 153 + feb y /\
  days_before_month y 8 = 184 + feb y /\
  days_before_month y 9 = 215 + feb y /\
  days_before_month y 10 = 245 + feb y /\
  days_before_month y 11 = 276 + feb y /\
  days_before_month y 12 = 306 + feb y.
Proof.
  unfold days_before_month, days_in_month, feb.
  generalize (is_leap y). intros [|]; repeat split; reflexivity.
Qed.

Ltac each_month m Hm :=
  destruct (month_cases m Hm)
    as [?|[?|[?|[?|[?|[?|[?|[?|[?|[?|[?|?]]]]]]]]]]]; subst m.

Lemma dayofyear_bounds (t : date) :
  valid_date t = true ->
  1 <= dayofyear t <= year_length (d_year t).
Proof.
  intros H. apply valid_date_bounds in H. destruct H as [Hm Hd].
  destruct t as [y m d]. cbn [d_year d_month d_day] in *.
  unfold dayofyear. cbn [d_year d_month d_day].
  pose proof (days_in_month_table y) as Ti.
  pose proof (days_before_month_table y) as Tb.
  unfold year_length, feb in *.
  each_month m Hm; destruct (is_leap y); lia.
Qed.

Lemma is_leap_spec (y : Z) :
  is_leap y = true <-> (y mod 4 = 0 /\ y mod 100 <> 0) \/ y mod 400 = 0.
Proof.
  unfold is_leap.
  rewrite orb_true_iff, andb_true_iff, negb_true_iff, !Z.eqb_eq, Z.eqb_neq.
  reflexivity.
Qed.

Lemma days_before_year_succ (y : Z) :
  days_before_year (y + 1) = days_before_year y + year_length y.
Proof.
  unfold days_before_year, year_length.
  destruct (is_leap y) eqn:E.
  - apply is_leap_spec in E.
    replace (y + 1 - 1) with y by lia.
    destruct E as [[E4 E100] | E400]; Z.div_mod_to_equations; lia.
  - assert (N : ~ ((y mod 4 = 0 /\ y mod 100 <> 0) \/ y mod 400 = 0)).
    { rewrite <- is_leap_spec. congruence. }
    replace (y + 1 - 1) with y by lia.
    Z.div_mod_to_equations. lia.
Qed.

(** The Monday that opens ISO week 1 lies within three days of 1 January
    and is a Monday. *)
Lemma isoweek1monday_range (y : Z) :
  ymd2ord y 1 1 - 3 <= isoweek1monday y <= ymd2ord y 1 1 + 3 /\
  (isoweek1monday y + 6) mod 7 = 0.
Proof.
  unfold isoweek1monday. generalize (ymd2ord y 1 1). intros f.
  destruct (Z.ltb_spec 3 ((f + 6) mod 7)); Z.div_mod_to_equations; lia.
Qed.

Lemma ymd2ord_new_year (y : Z) : ymd2ord y 1 1 = days_before_year y + 1.
Proof.
  unfold ymd2ord. change (days_before_month y 1) with 0. lia.
Qed.

Lemma isoweek_bounds (t : date) :
  valid_date t = true -> 1 <= isoweek t <= 53.
Proof.
  intros H. pose proof (dayofyear_bounds t H) as Hdoy.
  unfold isoweek. unfold dayofyear in Hdoy.
  destruct t as [y m d]. cbn [d_year d_month d_day] in *. cbv zeta.
  set (doy := days_before_month y m + d) in *.
  replace (ymd2ord y m d) with (days_before_year y + doy)
    by (unfold ymd2ord, doy; lia).
  pose proof (isoweek1monday_range (y - 1)) as [R0 M0].
  pose proof (isoweek1monday_range y) as [R1 M1].
  pose proof (isoweek1monday_range (y + 1)) as [R2 M2].
  rewrite ymd2ord_new_year in R0, R1, R2.
  pose proof (days_before_year_succ y) as S1.
  pose proof (days_before_year_succ (y - 1)) as S0.
  replace (y - 1 + 1) with y in S0 by lia.
  assert (L1 : 365 <= year_length y <= 366)
    by (unfold year_length; destruct (is_leap y); lia).
  assert (L0 : 365 <= year_length (y - 1) <= 366)
    by (unfold year_length; destruct (is_leap (y - 1)); lia).
  set (b1 := days_before_year y) in *.
  set (w1 := isoweek1monday y) in *.
  set (w2 := isoweek1monday (y + 1)) in *.
  clearbody b1 w1 w2 doy.
  destruct (Z.ltb_spec ((b1 + doy - w1) / 7) 0) as [Hneg | Hpos].
  - Z.div_mod_to_equations. lia.
  - destruct (Z.leb_spec 52 ((b1 + doy - w1) / 7)) as [H52 | H52];
      destruct (Z.leb_spec w2 (b1 + doy)) as [Hn | Hn]; cbn [andb];
      Z.div_mod_to_equations; lia.
Qed.

(** The date lies in the numbered week of its ISO year, which is the
    calendar year or one of its neighbours. *)
Lemma isoweek_week_of_date (t : date) :
  valid_date t = true ->
  let today := ymd2ord (d_year t) (d_month t) (d_day t) in
  exists iso_year,
    (iso_year = d_year t - 1 \/ iso_year = d_year t \/
     iso_year = d_year t + 1) /\
    isoweek1monday iso_year + 7 * (isoweek t - 1) <= today
      < isoweek1monday iso_year + 7 * isoweek t /\
    today < isoweek1monday (iso_year + 1).
Proof.
  intros H. pose proof (dayofyear_bounds t H) as Hdoy.
  unfold isoweek. unfold dayofyear in Hdoy.
  destruct t as [y m d]. cbn [d_year d_month d_day] in *. cbv zeta.
  set (doy := days_before_month y m + d) in *.
  replace (ymd2ord y m d) with (days_before_year y + doy)
    by (unfold ymd2ord, doy; lia).
  pose proof (isoweek1monday_range (y - 1)) as [R0 M0].
  pose proof (isoweek1monday_range y) as [R1 M1].
  pose proof (isoweek1monday_range (y + 1)) as [R2 M2].
  pose proof (isoweek1monday_range (y + 1 + 1)) as [R3 M3].
  rewrite ymd2ord_new_year in R0, R1, R2, R3.
  pose proof (days_before_year_succ y) as S1.
  pose proof (days_before_year_succ (y + 1)) as S2.
  pose proof (days_before_year_succ (y - 1)) as S0.
  replace (y - 1 + 1) with y in * by lia.
  assert (L1 : 365 <= year_length y <= 366)
    by (unfold year_length; destruct (is_leap y); lia).
  assert (L2 : 365 <= year_length (y + 1) <= 366)
    by (unfold year_length; destruct (is_leap (y + 1)); lia).
  assert (L0 : 365 <= year_length (y - 1) <= 366)
    by (unfold year_length; destruct (is_leap (y - 1)); lia).
  set (b1 := days_before_year y) in *.
  set (w0 := isoweek1monday (y - 1)) in *.
  set (w1 := isoweek1monday y) in *.
  set (w2 := isoweek1monday (y + 1)) in *.
  set (w3 := isoweek1monday (y + 1 + 1)) in *.
  destruct (Z.ltb_spec ((b1 + doy - w1) / 7) 0) as [Hneg | Hpos].
  - exists (y - 1). replace (y - 1 + 1) with y by lia.
    change (isoweek1monday (y - 1)) with w0.
    change (isoweek1monday y) with w1.
    clearbody b1 w0 w1 w2 w3 doy.
    split; [lia|]. Z.div_mod_to_equations. lia.
  - destruct (Z.leb_spec 52 ((b1 + doy - w1) / 7)) as [H52 | H52];
      destruct (Z.leb_spec w2 (b1 + doy)) as [Hn | Hn]; cbn [andb].
    + exists (y + 1).
      change (isoweek1monday (y + 1)) with w2.
      change (isoweek1monday (y + 1 + 1)) with w3.
      clearbody b1 w0 w1 w2 w3 doy.
      split; [lia|]. Z.div_mod_to_equations. lia.
    + exists y.
      change (isoweek1monday (y + 1)) with w2.
      change (isoweek1monday y) with w1.
      clearbody b1 w0 w1 w2 w3 doy.
      split; [lia|]. Z.div_mod_to_equations. lia.
    + exists y.
      change (isoweek1monday (y + 1)) with w2.
      change (isoweek1monday y) with w1.
      clearbody b1 w0 w1 w2 w3 doy.
      split; [lia|]. Z.div_mod_to_equations. lia.
    + exists y.
      change (isoweek1monday (y + 1)) with w2.
      change (isoweek1monday y) with w1.
      clearbody b1 w0 w1 w2 w3 doy.
      split; [lia|]. Z.div_mod_to_equations. lia.
Qed.

(** Within one year the day of the year identifies the date. *)
Lemma dayofyear_injective (t1 t2 : date) :
  valid_date t1 = true -> valid_date t2 = true ->
  d_year t1 = d_year t2 -> dayofyear t1 = dayofyear t2 -> t1 = t2.
Proof.
  intros H1 H2 Hy Hd.
  apply valid_date_bounds in H1. destruct H1 as [Hm1 Hd1].
  apply valid_date_bounds in H2. destruct H2 as [Hm2 Hd2].
  destruct t1 as [y m1 d1], t2 as [y2 m2 d2].
  cbn [d_year d_month d_day] in *. subst y2.
  unfold dayofyear in Hd. cbn [d_year d_month d_day] in Hd.
  pose proof (days_in_month_table y) as Ti.
  pose proof (days_before_month_table y) as Tb.
  assert (Hf : 28 <= feb y <= 29) by (unfold feb; destruct (is_leap y); lia).
  assert (E : m1 = m2 /\ d1 = d2)
    by (each_month m1 Hm1; each_month m2 Hm2; lia).
  destruct E. subst. reflexivity.
Qed.

(** ** Groups and their sizes *)

Section GroupFacts.
Context {K : Type} (cmp : K -> K -> comparison).
Hypothesis cmp_eq : forall a b, cmp a b = Eq <-> a = b.
Hypothesis cmp_antisym : forall a b, cmp b a = CompOpp (cmp a b).
Hypothesis cmp_trans :
  forall a b c, cmp a b = Lt -> cmp b c = Lt -> cmp a c = Lt.

Lemma sorted_NoDup (l : list K) : StronglySorted (klt cmp) l -> NoDup l.
Proof.
  induction 1 as [|a t Hs IH Ha]; constructor; [|exact IH].
  intros Hin. rewrite Forall_forall in Ha.
  exact (klt_irrefl cmp cmp_eq a (Ha a Hin)).
Qed.

Lemma sort_uniq_NoDup (l : list K) : NoDup (sort_uniq cmp l).
Proof.
  apply sorted_NoDup, sort_uniq_sorted; assumption.
Qed.

Lemma list_sum_cons (a : nat) (l : list nat) :
  list_sum (a :: l) = (a + list_sum l)%nat.
Proof. reflexivity. Qed.

(** In a duplicate-free list of keys exactly one equals a key that it
    holds. *)
Lemma one_key_matches (a : K) (ks : list K) :
  NoDup ks -> In a ks ->
  list_sum (map (fun k => if key_eqb cmp a k then 1 else 0)%nat ks) = 1%nat.
Proof.
  induction 1 as [|k ks Hk Hnd IH]; intros Hin; [destruct Hin|].
  cbn [map]. rewrite list_sum_cons.
  destruct (key_eqb cmp a k) eqn:E.
  - apply (key_eqb_eq cmp cmp_eq) in E. subst k.
    assert (Z0 : list_sum (map (fun k => if key_eqb cmp a k then 1 else 0)%nat ks)
                 = 0%nat).
    { clear IH Hnd Hin. induction ks as [|k ks IHk]; [reflexivity|].
      cbn [map]. rewrite list_sum_cons.
      destruct (key_eqb cmp a k) eqn:F.
      - apply (key_eqb_eq cmp cmp_eq) in F. subst k.
        exfalso. apply Hk. left. reflexivity.
      - rewrite IHk; [reflexivity|]. intros H. apply Hk. right. exact H. }
    rewrite Z0. reflexivity.
  - destruct Hin as [Hin | Hin].
    + subst k. assert (T : key_eqb cmp a a = true)
        by (apply (key_eqb_eq cmp cmp_eq); reflexivity).
      congruence.
    + rewrite (IH Hin). reflexivity.
Qed.

Lemma group_sizes_sum (key : Row -> K) (ks : list K) (rs : list Row) :
  NoDup ks -> (forall r, In r rs -> In (key r) ks) ->
  list_sum (map (fun k => List.length
                            (filter (fun r => key_eqb cmp (key r) k) rs)) ks)
  = List.length rs.
Proof.
  intros Hnd. induction rs as [|r t IH]; intros Hin.
  - cbn [filter List.length]. clear Hnd Hin.
    induction ks as [|k ks IHk]; [reflexivity|].
    cbn [map]. rewrite list_sum_cons, IHk. reflexivity.
  - assert (E : forall ks0,
               list_sum (map (fun k => List.length
                                (filter (fun r0 => key_eqb cmp (key r0) k)
                                        (r :: t))) ks0)
               = (list_sum (map (fun k => if key_eqb cmp (key r) k
                                          then 1 else 0)%nat ks0)
                  + list_sum (map (fun k => List.length
                                     (filter (fun r0 => key_eqb cmp (key r0) k)
                                             t)) ks0))%nat).
    { induction ks0 as [|k ks0 IHk]; [reflexivity|].
      cbn [map]. rewrite !list_sum_cons, IHk. cbn [filter].
      destruct (key_eqb cmp (key r) k); cbn [List.length]; lia. }
    rewrite E, one_key_matches, IH.
    + reflexivity.
    + intros r0 H0. apply Hin. right. exact H0.
    + exact Hnd.
    + apply Hin. left. reflexivity.
Qed.

(** The groups of [groupby] partition the rows. *)
Lemma groupby_sizes_sum (key : Row -> K) (rs : list Row) :
  list_sum (map (fun g : K * list Row => List.length (snd g))
                (groupby cmp key rs))
  = List.length rs.
Proof.
  unfold groupby. rewrite map_map. cbn [snd].
  apply group_sizes_sum.
  - apply sort_uniq_NoDup.
  - intros r Hr. apply (In_sort_uniq cmp cmp_eq). apply in_map. exact Hr.
Qed.
End GroupFacts.

(** ** Frames made by [load_data] *)

Lemma calendar_ok_spec (r : Row) :
  calendar_ok r = true <->
  valid_date (Date r) = true /\ Year r = d_year (Date r) /\
  Month r = d_month (Date r) /\ Day r = d_day (Date r) /\
  DayOfYear r = dayofyear (Date r) /\ WeekOfYear r = isoweek (Date r).
Proof.
  unfold calendar_ok. rewrite !andb_true_iff, !Z.eqb_eq. tauto.
Qed.

Lemma well_formed_spec (df : DataFrame) :
  well_formed df = true <-> forall r, In r (rows df) -> calendar_ok r = true.
Proof. unfold well_formed. apply forallb_forall. Qed.

Lemma filter_years_well_formed (df : DataFrame) (selected_years : list Z) :
  well_formed df = true -> well_formed (filter_years df selected_years) = true.
Proof.
  rewrite !well_formed_spec. intros H r Hr. apply H.
  unfold filter_years in Hr. cbn [rows] in Hr.
  apply filter_In in Hr. tauto.
Qed.

Lemma days_in_month_le_31 (y m : Z) : days_in_month y m <= 31.
Proof.
  unfold days_in_month.
  destruct (m =? 2); [destruct (is_leap y); lia|].
  destruct ((m =? 4) || (m =? 6) || (m =? 9) || (m =? 11)); lia.
Qed.

Lemma calendar_ok_bounds (r : Row) :
  calendar_ok r = true ->
  1 <= Month r <= 12 /\ 1 <= Day r <= 31 /\
  1 <= DayOfYear r <= 366 /\ 1 <= WeekOfYear r <= 53.
Proof.
  intros H. apply calendar_ok_spec in H.
  destruct H as (Hv & Hy & Hm & Hd & Hdoy & Hw).
  pose proof (valid_date_bounds _ Hv) as [Bm Bd].
  pose proof (days_in_month_le_31 (d_year (Date r)) (d_month (Date r))).
  pose proof (dayofyear_bounds _ Hv) as Bdoy.
  pose proof (isoweek_bounds _ Hv) as Bw.
  assert (year_length (d_year (Date r)) <= 366)
    by (unfold year_length; destruct (is_leap (d_year (Date r))); lia).
  rewrite Hm, Hd, Hdoy, Hw. lia.
Qed.

(** X1: when every date of the file exists, [load_data] returns one row
    per line of the file, in order and with the prices as read, whose
    calendar columns are those of the row's date and lie in range:
    month 1..12, day 1..31, day of year 1..366, week of year 1..53.
    No row has a [Quarter] yet. *)
Theorem load_data_calendar_columns (csv : list (date * Q)) :
  forallb (fun dp => valid_date (fst dp)) csv = true ->
  let df := load_data csv in
  well_formed df = true /\
  map Date (rows df) = map fst csv /\
  map Price (rows df) = map snd csv /\
  Forall (fun r => 1 <= Month r <= 12 /\ 1 <= Day r <= 31 /\
                   1 <= DayOfYear r <= 366 /\ 1 <= WeekOfYear r <= 53 /\
                   Quarter r = None)
         (rows df).
Proof.
  intros Hcsv df.
  assert (Hok : forall r, In r (rows df) -> calendar_ok r = true).
  { intros r Hr. unfold df, load_data in Hr. cbn [rows] in Hr.
    apply in_map_iff in Hr. destruct Hr as [dp [<- Hdp]].
    rewrite forallb_forall in Hcsv. specialize (Hcsv dp Hdp).
    unfold calendar_ok, load_row. cbn.
    rewrite Hcsv, !Z.eqb_refl. reflexivity. }
  split; [apply well_formed_spec, Hok|].
  split; [unfold df, load_data; cbn [rows]; rewrite map_map; reflexivity|].
  split; [unfold df, load_data; cbn [rows]; rewrite map_map; reflexivity|].
  apply Forall_forall. intros r Hr.
  pose proof (calendar_ok_bounds r (Hok r Hr)) as B.
  unfold df, load_data in Hr. cbn [rows] in Hr.
  apply in_map_iff in Hr. destruct Hr as [dp [<- Hdp]].
  cbn [Quarter load_row]. cbn [load_row Month Day DayOfYear WeekOfYear] in B.
  cbn [load_row Month Day DayOfYear WeekOfYear]. tauto.
Qed.

Lemma load_data_calendar_columns_witness :
  well_formed sample_df = true /\
  map Price (rows sample_df) = [10%Q; 20%Q; 30%Q; 50%Q].
Proof.
  destruct (load_data_calendar_columns sample_csv eq_refl)
    as (Hw & _ & Hp & _).
  split; [exact Hw | exact Hp].
Defined.

(** X2: in a frame made by [load_data], two rows of the same year with
    the same day of the year carry the same date: within a year the
    overlay axis separates the days. *)
Theorem day_of_year_identifies_date (df : DataFrame) (r1 r2 : Row) :
  well_formed df = true ->
  In r1 (rows df) -> In r2 (rows df) ->
  Year r1 = Year r2 -> DayOfYear r1 = DayOfYear r2 ->
  Date r1 = Date r2.
Proof.
  intros Hw H1 H2 Hy Hd. rewrite well_formed_spec in Hw.
  pose proof (proj1 (calendar_ok_spec r1) (Hw r1 H1))
    as (V1 & Y1 & _ & _ & D1 & _).
  pose proof (proj1 (calendar_ok_spec r2) (Hw r2 H2))
    as (V2 & Y2 & _ & _ & D2 & _).
  apply dayofyear_injective; try assumption; congruence.
Qed.

Lemma day_of_year_identifies_date_witness :
  load_row (mkDate 2020 1 20, 20%Q) <> load_row (mkDate 2020 1 20, 25%Q) /\
  Date (load_row (mkDate 2020 1 20, 20%Q))
  = Date (load_row (mkDate 2020 1 20, 25%Q)).
Proof.
  split; [intros E; apply (f_equal Price) in E; discriminate E|].
  apply (day_of_year_identifies_date
           (load_data [ (mkDate 2020 1 20, 20%Q); (mkDate 2020 3 1, 30%Q);
                        (mkDate 2020 1 20, 25%Q) ]));
    try reflexivity.
  - left. reflexivity.
  - right. right. left. reflexivity.
Defined.

(** X3: the week number that [load_data] stores is the week of the
    ISO year that holds the date, and that ISO year is the row's
    calendar year or one of its neighbours.  ISO week 1 opens on the
    Monday within three days of 1 January; the date falls in the seven
    days that start [7 * (week - 1)] days after that Monday, and before
    the Monday that opens week 1 of the following year. *)
Theorem week_of_year_is_iso_week (df : DataFrame) (r : Row) :
  well_formed df = true -> In r (rows df) ->
  let today := ymd2ord (Year r) (Month r) (Day r) in
  exists iso_year,
    (iso_year = Year r - 1 \/ iso_year = Year r \/ iso_year = Year r + 1) /\
    ymd2ord iso_year 1 1 - 3 <= isoweek1monday iso_year
      <= ymd2ord iso_year 1 1 + 3 /\
    (isoweek1monday iso_year + 6) mod 7 = 0 /\
    isoweek1monday iso_year + 7 * (WeekOfYear r - 1) <= today
      < isoweek1monday iso_year + 7 * WeekOfYear r /\
    today < isoweek1monday (iso_year + 1).
Proof.
  intros Hw Hr. rewrite well_formed_spec in Hw.
  pose proof (proj1 (calendar_ok_spec r) (Hw r Hr))
    as (V & Y & M & D & _ & W).
  rewrite Y, M, D, W.
  destruct (isoweek_week_of_date (Date r) V) as (iy & Hy & Hin & Hnext).
  exists iy. split; [exact Hy|].
  destruct (isoweek1monday_range iy) as [R Mo].
  split; [exact R|]. split; [exact Mo|]. split; [exact Hin | exact Hnext].
Qed.

Lemma week_of_year_is_iso_week_witness :
  exists iso_year,
    (iso_year = 2021 - 1 \/ iso_year = 2021 \/ iso_year = 2021 + 1) /\
    ymd2ord iso_year 1 1 - 3 <= isoweek1monday iso_year
      <= ymd2ord iso_year 1 1 + 3 /\
    (isoweek1monday iso_year + 6) mod 7 = 0 /\
    isoweek1monday iso_year + 7 * (53 - 1) <= ymd2ord 2021 1 1
      < isoweek1monday iso_year + 7 * 53 /\
    ymd2ord 2021 1 1 < isoweek1monday (iso_year + 1).
Proof.
  apply (week_of_year_is_iso_week
           (load_data [ (mkDate 2021 1 1, 1%Q) ])
           (load_row (mkDate 2021 1 1, 1%Q)) eq_refl).
  left. reflexivity.
Defined.

Lemma quarter_of_ceil (t : date) :
  1 <= d_month t <= 12 ->
  1 <= quarter_of t <= 4 /\
  3 * quarter_of t - 2 <= d_month t <= 3 * quarter_of t.
Proof.
  unfold quarter_of. intros H. Z.div_mod_to_equations. lia.
Qed.

(** X4: on a frame made by [load_data], the column that
    [create_quarterly_chart] assigns holds for every row a quarter from
    1 to 4, the one whose three months include the row's month
    (quarter = ceil(month / 3)). *)
Theorem assigned_quarter_of_month (df : DataFrame) :
  well_formed df = true ->
  Forall (fun r => exists q, Quarter r = Some q /\ 1 <= q <= 4 /\
                             3 * q - 2 <= Month r <= 3 * q)
         (rows (fst (create_quarterly_chart df))).
Proof.
  intros Hw. rewrite well_formed_spec in Hw. apply Forall_forall.
  intros r Hr. cbn [create_quarterly_chart fst assign_Quarter rows] in Hr.
  apply in_map_iff in Hr. destruct Hr as [r0 [<- Hr0]].
  pose proof (proj1 (calendar_ok_spec r0) (Hw r0 Hr0))
    as (V & _ & M & _).
  pose proof (valid_date_bounds _ V) as [Bm _].
  exists (quarter_of (Date r0)). cbn [set_Quarter Quarter Month].
  rewrite M. split; [reflexivity|]. apply quarter_of_ceil. exact Bm.
Qed.

Lemma assigned_quarter_of_month_witness :
  Forall (fun r => exists q, Quarter r = Some q /\ 1 <= q <= 4 /\
                             3 * q - 2 <= Month r <= 3 * q)
         (rows (fst (create_quarterly_chart sample_df))).
Proof.
  apply (assigned_quarter_of_month sample_df). reflexivity.
Defined.

(** ** Every observation is counted once *)

Lemma Z_of_list_sum (l : list nat) :
  fold_right Z.add 0 (map Z.of_nat l) = Z.of_nat (list_sum l).
Proof.
  induction l as [|a t IH]; [reflexivity|].
  cbn [map fold_right]. rewrite list_sum_cons, IH. lia.
Qed.

(** X5: the [Days] column of the summary partitions the rows of the
    frame: every year of the table counts at least one day, and the
    counts add up to the number of rows. *)
Theorem summary_days_add_up (rs : list Row) :
  Forall (fun s => 1 <= s_Days s) (summary_agg rs) /\
  fold_right Z.add 0 (map s_Days (summary_agg rs))
  = Z.of_nat (List.length rs).
Proof.
  split.
  - apply Forall_forall. intros s Hs. apply in_map_iff in Hs.
    destruct Hs as [[k g] [<- Hg]]. cbn [s_Days snd].
    apply (groupby_nonempty Z.compare Zcmp_eq) in Hg.
    unfold prices. rewrite length_map. destruct g; [congruence|].
    cbn [List.length]. lia.
  - unfold summary_agg. rewrite map_map. cbn [s_Days].
    rewrite <- (groupby_sizes_sum Z.compare Zcmp_eq Zcmp_antisym Zcmp_trans
                  year_key rs).
    rewrite <- Z_of_list_sum, map_map. f_equal. apply map_ext.
    intros g. unfold prices. rewrite length_map. reflexivity.
Qed.

(** ** The overlay chart *)

Lemma insert_by_perm (key : Row -> Z) (r : Row) (l : list Row) :
  Permutation (insert_by key r l) (r :: l).
Proof.
  induction l as [|h t IH]; cbn [insert_by]; [apply Permutation_refl|].
  destruct (key r <=? key h); [apply Permutation_refl|].
  eapply Permutation_trans; [apply perm_skip, IH | apply perm_swap].
Qed.

Lemma sort_values_perm (key : Row -> Z) (rs : list Row) :
  Permutation (sort_values key rs) rs.
Proof.
  induction rs as [|r t IH]; cbn [sort_values fold_right];
    [apply Permutation_refl|].
  eapply Permutation_trans; [apply insert_by_perm | apply perm_skip, IH].
Qed.

Lemma insert_by_sorted (key : Row -> Z) (r : Row) (l : list Row) :
  StronglySorted Z.le (map key l) ->
  StronglySorted Z.le (map key (insert_by key r l)).
Proof.
  induction l as [|h t IH]; intros Hs; cbn [insert_by map].
  - repeat constructor.
  - inversion Hs as [|? ? Hst Hh]; subst.
    destruct (Z.leb_spec (key r) (key h)) as [Hle | Hgt]; cbn [map].
    + constructor; [exact Hs|]. constructor; [exact Hle|].
      rewrite Forall_forall in *. intros z Hz. specialize (Hh z Hz). lia.
    + constructor; [apply IH, Hst|].
      rewrite Forall_forall in *. intros z Hz.
      apply in_map_iff in Hz. destruct Hz as [r0 [<- Hr0]].
      apply (Permutation_in _ (insert_by_perm key r t)) in Hr0.
      destruct Hr0 as [<- | Hr0]; [lia|].
      apply Hh, in_map, Hr0.
Qed.

Lemma sort_values_sorted (key : Row -> Z) (rs : list Row) :
  StronglySorted Z.le (map key (sort_values key rs)).
Proof.
  induction rs as [|r t IH]; cbn [sort_values fold_right map];
    [constructor|].
  apply insert_by_sorted, IH.
Qed.

Lemma map_snd_combine_seq {A : Type} (l : list A) :
  forall n, map snd (combine (seq n (List.length l)) l) = l.
Proof.
  induction l as [|a t IH]; intros n; [reflexivity|].
  cbn [List.length seq combine map snd]. rewrite IH. reflexivity.
Qed.

Lemma map_snd_enumerate {A : Type} (l : list A) :
  map snd (enumerate l) = l.
Proof. apply map_snd_combine_seq. Qed.

Lemma combine_map_same {A B C : Type} (f : A -> B) (g : A -> C) (l : list A) :
  combine (map f l) (map g l) = map (fun a => (f a, g a)) l.
Proof.
  induction l as [|a t IH]; [reflexivity|].
  cbn [map combine]. rewrite IH. reflexivity.
Qed.

Lemma year_sizes_sum (rs : list Row) :
  list_sum (map (fun yr => List.length (rows_of_year yr rs))
                (sorted_unique (map Year rs)))
  = List.length rs.
Proof.
  rewrite <- (groupby_sizes_sum Z.compare Zcmp_eq Zcmp_antisym Zcmp_trans
                year_key rs).
  unfold groupby. rewrite map_map. cbn [snd]. f_equal.
  apply map_ext. intros k. unfold rows_of_year. f_equal.
  apply filter_ext. intros r. symmetry. apply year_key_eqb.
Qed.

(** X6: the overlay chart draws every row of the frame exactly once:
    the series are, in order, those of the years of the frame; the
    points of a year's series are that year's (day of year, price)
    pairs, rearranged so that the day of the year never decreases; and
    the series together hold as many points as the frame has rows. *)
Theorem overlay_draws_every_row (df : DataFrame) :
  let fig := snd (create_overlay_chart df) in
  Forall2 (fun yr t =>
             Permutation (points t)
                         (map (fun r => (DayOfYear r, Fin (Price r)))
                              (rows_of_year yr (rows df))) /\
             StronglySorted Z.le (x t) /\
             List.length (y t) = List.length (x t))
          (sorted_unique (map Year (rows df))) (traces fig) /\
  list_sum (map (fun t => List.length (points t)) (traces fig))
  = List.length (rows df).
Proof.
  intros fig. subst fig. unfold create_overlay_chart. cbn [snd traces].
  split.
  - rewrite <- (map_snd_enumerate (sorted_unique (map Year (rows df)))) at 1.
    generalize (enumerate (sorted_unique (map Year (rows df)))).
    intros l. induction l as [|[i yr] l IH]; cbn [map]; constructor;
      [|exact IH].
    unfold points. cbn [snd x y]. split; [|split].
    + rewrite combine_map_same. apply Permutation_map, sort_values_perm.
    + apply sort_values_sorted.
    + rewrite !length_map. reflexivity.
  - rewrite map_map.
    rewrite <- (year_sizes_sum (rows df)).
    rewrite <- (map_snd_enumerate (sorted_unique (map Year (rows df)))) at 2.
    rewrite map_map. f_equal. apply map_ext. intros [i yr].
    unfold points. cbn [snd x y]. rewrite combine_map_same, length_map.
    apply Permutation_length, sort_values_perm.
Qed.

(** ** The series of the grouped charts *)

(** The second components of the keys of one year, in key order,
    increase strictly. *)
Lemma year_keys_increase (y : Z) (ks : list (Z * Z)) :
  StronglySorted (klt pair_compare) ks ->
  StronglySorted Z.lt (map snd (filter (fun k => fst k =? y) ks)).
Proof.
  induction 1 as [|k t Hs IH Hk]; cbn [filter map]; [constructor|].
  destruct (Z.eqb_spec (fst k) y) as [E | E]; [|exact IH].
  cbn [map]. constructor; [exact IH|].
  rewrite Forall_forall in *. intros z Hz.
  apply in_map_iff in Hz. destruct Hz as [k' [<- Hk']].
  apply filter_In in Hk'. destruct Hk' as [Hin Hy].
  apply Z.eqb_eq in Hy. specialize (Hk k' Hin).
  unfold klt in Hk. apply pair_cmp_lt in Hk. lia.
Qed.

Lemma increasing_bounded_length (l : list Z) :
  forall a b, StronglySorted Z.lt l -> Forall (fun z => a <= z <= b) l ->
              Z.of_nat (List.length l) <= Z.max 0 (b - a + 1).
Proof.
  induction l as [|h t IH]; intros a b Hs Hb; cbn [List.length]; [lia|].
  inversion Hs as [|? ? Hst Hh]; subst. inversion Hb as [|? ? Hhb Htb]; subst.
  assert (Ht : Forall (fun z => h + 1 <= z <= b) t).
  { rewrite Forall_forall in *. intros z Hz.
    specialize (Hh z Hz). specialize (Htb z Hz). lia. }
  specialize (IH (h + 1) b Hst Ht). lia.
Qed.

(** The series of one year in a frame grouped by (year, bucket): the
    buckets of that year in increasing order, each holding a row. *)
Lemma year_series_buckets (key : Row -> Z * Z) (rs : list Row) (y : Z) :
  let buckets :=
    map (fun g : Z * Z * list Row => snd (fst g))
        (filter (fun g : Z * Z * list Row => fst (fst g) =? y)
                (groupby pair_compare key rs)) in
  StronglySorted Z.lt buckets /\
  (forall b, In b buckets -> exists r, In r rs /\ key r = (y, b)).
Proof.
  intros buckets. subst buckets.
  assert (E : map (fun g : Z * Z * list Row => snd (fst g))
                  (filter (fun g : Z * Z * list Row => fst (fst g) =? y)
                          (groupby pair_compare key rs))
              = map snd (filter (fun k => fst k =? y)
                                (map fst (groupby pair_compare key rs)))).
  { rewrite filter_map_comm, map_map. reflexivity. }
  rewrite E, groupby_keys. split.
  - apply year_keys_increase.
    apply (sort_uniq_sorted pair_compare pair_cmp_eq pair_cmp_antisym
             pair_cmp_trans).
  - intros b Hb. apply in_map_iff in Hb. destruct Hb as [[y' b'] [Eb Hk]].
    cbn [snd] in Eb. subst b'. apply filter_In in Hk. destruct Hk as [Hk Hy].
    cbn [fst] in Hy. apply Z.eqb_eq in Hy. subst y'.
    rewrite (In_sort_uniq pair_compare pair_cmp_eq) in Hk.
    apply in_map_iff in Hk. destruct Hk as [r [Er Hr]].
    exists r. split; [exact Hr | exact Er].
Qed.

Lemma in_enumerate {A : Type} (l : list A) (i : nat) (a : A) :
  In (i, a) (enumerate l) -> In a l.
Proof. unfold enumerate. apply in_combine_r. Qed.

Lemma bounded_length_nat (l : list Z) (n : Z) :
  1 <= n -> StronglySorted Z.lt l -> Forall (fun z => 1 <= z <= n) l ->
  (List.length l <= Z.to_nat n)%nat.
Proof.
  intros Hn Hs Hb. pose proof (increasing_bounded_length l 1 n Hs Hb). lia.
Qed.

(** X7: on a frame made by [load_data], every series of the monthly
    chart has between one and twelve points, its months increase
    strictly from left to right and lie in 1..12, and it carries one
    mean and one error bar per month. *)
Theorem monthly_series_shape (df : DataFrame) :
  well_formed df = true ->
  Forall (fun t =>
            StronglySorted Z.lt (x t) /\
            Forall (fun m => 1 <= m <= 12) (x t) /\
            (1 <= List.length (x t) <= 12)%nat /\
            List.length (y t) = List.length (x t) /\
            option_map (@List.length fnum) (error_y t)
            = Some (List.length (x t)))
         (traces (snd (create_monthly_chart df))).
Proof.
  intros Hw. rewrite well_formed_spec in Hw.
  apply Forall_forall. intros t Ht.
  unfold create_monthly_chart in Ht. cbn [snd traces] in Ht.
  apply in_map_iff in Ht. destruct Ht as [[i yr] [<- Hiy]].
  apply in_enumerate in Hiy. cbn [x y error_y option_map].
  rewrite !length_map.
  unfold monthly_agg in *.
  rewrite filter_map_comm, map_map. cbn [m_Year m_Month].
  destruct (year_series_buckets year_month_key (rows df) yr) as [Hs Hb].
  assert (Hrange : Forall (fun m => 1 <= m <= 12)
                     (map (fun g : Z * Z * list Row => snd (fst g))
                        (filter (fun g : Z * Z * list Row => fst (fst g) =? yr)
                           (groupby pair_compare year_month_key (rows df))))).
  { apply Forall_forall. intros m Hm. destruct (Hb m Hm) as [r [Hr Er]].
    inversion Er; subst. apply (calendar_ok_bounds r (Hw r Hr)). }
  split; [exact Hs|]. split; [exact Hrange|].
  split; [|split; reflexivity].
  split.
  - rewrite In_sorted_unique, map_map in Hiy. cbn [m_Year] in Hiy.
    apply in_map_iff in Hiy. destruct Hiy as [g [Eg Hg]].
    rewrite ?length_map.
    assert (Hin : In g (filter (fun g0 : Z * Z * list Row => fst (fst g0) =? yr)
                          (groupby pair_compare year_month_key (rows df)))).
    { apply filter_In. split; [exact Hg | apply Z.eqb_eq, Eg]. }
    destruct (filter _ _); [destruct Hin | cbn [List.length]; lia].
  - pose proof (bounded_length_nat _ 12 ltac:(lia) Hs Hrange) as B.
    rewrite ?length_map in *. exact B.
Qed.

Lemma monthly_series_shape_witness :
  Forall (fun t =>
            StronglySorted Z.lt (x t) /\
            Forall (fun m => 1 <= m <= 12) (x t) /\
            (1 <= List.length (x t) <= 12)%nat /\
            List.length (y t) = List.length (x t) /\
            option_map (@List.length fnum) (error_y t)
            = Some (List.length (x t)))
         (traces (snd (create_monthly_chart sample_df))).
Proof. apply (monthly_series_shape sample_df). reflexivity. Defined.

(** X8: on a frame made by [load_data], every series of the weekly
    chart has between one and 53 points, and its week numbers increase
    strictly from left to right and lie in 1..53. *)
Theorem weekly_series_shape (df : DataFrame) :
  well_formed df = true ->
  Forall (fun t =>
            StronglySorted Z.lt (x t) /\
            Forall (fun w => 1 <= w <= 53) (x t) /\
            (1 <= List.length (x t) <= 53)%nat /\
            List.length (y t) = List.length (x t))
         (traces (snd (create_weekly_chart df))).
Proof.
  intros Hw. rewrite well_formed_spec in Hw.
  apply Forall_forall. intros t Ht.
  unfold create_weekly_chart in Ht. cbn [snd traces] in Ht.
  apply in_map_iff in Ht. destruct Ht as [[i yr] [<- Hiy]].
  apply in_enumerate in Hiy. cbn [x y].
  rewrite !length_map.
  unfold weekly_agg in *.
  rewrite filter_map_comm, map_map. cbn [w_Year w_WeekOfYear].
  destruct (year_series_buckets year_week_key (rows df) yr) as [Hs Hb].
  assert (Hrange : Forall (fun w => 1 <= w <= 53)
                     (map (fun g : Z * Z * list Row => snd (fst g))
                        (filter (fun g : Z * Z * list Row => fst (fst g) =? yr)
                           (groupby pair_compare year_week_key (rows df))))).
  { apply Forall_forall. intros w Hin. destruct (Hb w Hin) as [r [Hr Er]].
    inversion Er; subst. apply (calendar_ok_bounds r (Hw r Hr)). }
  split; [exact Hs|]. split; [exact Hrange|].
  split; [|reflexivity].
  split.
  - rewrite In_sorted_unique, map_map in Hiy. cbn [w_Year] in Hiy.
    apply in_map_iff in Hiy. destruct Hiy as [g [Eg Hg]].
    rewrite ?length_map.
    assert (Hin : In g (filter (fun g0 : Z * Z * list Row => fst (fst g0) =? yr)
                          (groupby pair_compare year_week_key (rows df)))).
    { apply filter_In. split; [exact Hg | apply Z.eqb_eq, Eg]. }
    destruct (filter _ _); [destruct Hin | cbn [List.length]; lia].
  - pose proof (bounded_length_nat _ 53 ltac:(lia) Hs Hrange) as B.
    rewrite ?length_map in *. exact B.
Qed.

Lemma weekly_series_shape_witness :
  Forall (fun t =>
            StronglySorted Z.lt (x t) /\
            Forall (fun w => 1 <= w <= 53) (x t) /\
            (1 <= List.length (x t) <= 53)%nat /\
            List.length (y t) = List.length (x t))
         (traces (snd (create_weekly_chart sample_df))).
Proof. apply (weekly_series_shape sample_df). reflexivity. Defined.

(** ** Rounding keeps the order *)

Lemma rint_bounds (p : Q) :
  (p - (1 # 2) <= inject_Z (rint p) <= p + (1 # 2))%Q.
Proof.
  unfold rint.
  pose proof (Qfloor_le p) as Hlo. pose proof (Qlt_floor p) as Hhi.
  rewrite inject_Z_plus in Hhi. change (inject_Z 1) with 1%Q in Hhi.
  destruct (Qcompare_spec (p - inject_Z (Qfloor p)) (1 # 2)) as [E | E | E].
  - destruct (Z.even (Qfloor p));
      [|rewrite inject_Z_plus; change (inject_Z 1) with 1%Q]; lra.
  - lra.
  - rewrite inject_Z_plus. change (inject_Z 1) with 1%Q. lra.
Qed.

Lemma rint_monotone (p q : Q) : (p <= q)%Q -> rint p <= rint q.
Proof.
  intros Hpq. destruct (Z_le_gt_dec (rint p) (rint q)) as [H | H]; [exact H|].
  exfalso.
  assert (Hz : rint q + 1 <= rint p) by lia.
  rewrite Zle_Qle, inject_Z_plus in Hz. change (inject_Z 1) with 1%Q in Hz.
  pose proof (rint_bounds p) as [_ Bp]. pose proof (rint_bounds q) as [Bq _].
  assert (E : (p == q)%Q) by lra.
  pose proof (rint_comp p q E). lia.
Qed.

Lemma round2_monotone (p q : Q) : (p <= q)%Q -> (round2 p <= round2 q)%Q.
Proof.
  intros H. unfold round2, Qle. cbn [Qnum Qden].
  assert (rint (p * 100) <= rint (q * 100)) by (apply rint_monotone; lra).
  lia.
Qed.

Lemma Qlen_cons (a : Q) (t : list Q) : (Qlen (a :: t) == Qlen t + 1)%Q.
Proof.
  unfold Qlen. cbn [List.length]. rewrite Nat2Z.inj_succ.
  unfold Z.succ. rewrite inject_Z_plus. reflexivity.
Qed.

Lemma Qlen_nonneg (t : list Q) : (0 <= Qlen t)%Q.
Proof.
  unfold Qlen. change 0%Q with (inject_Z 0). rewrite <- Zle_Qle. lia.
Qed.

Lemma flat_map_of_map {A B C : Type} (f : B -> list C) (g : A -> B)
    (l : list A) :
  flat_map f (map g l) = flat_map (fun a => f (g a)) l.
Proof.
  induction l as [|a t IH]; [reflexivity|].
  cbn [map flat_map]. rewrite IH. reflexivity.
Qed.

Lemma enumerate_length {A : Type} (l : list A) :
  List.length (enumerate l) = List.length l.
Proof.
  unfold enumerate. rewrite length_combine, length_seq. lia.
Qed.

(** X11: on a frame made by [load_data], the quarterly chart has two
    series per year of the frame, in year order: the average line over
    the year's quarters, which increase strictly and lie in 1..4, and
    the band, whose outline runs over the same quarters forward (upper
    edge) and then backward (lower edge).  Every series has as many
    values as positions. *)
Theorem quarterly_series_shape (df : DataFrame) :
  well_formed df = true ->
  let fig := snd (create_quarterly_chart df) in
  exists quarters : list (list Z),
    map x (traces fig)
    = flat_map (fun qs => [qs; qs ++ rev qs]) quarters /\
    List.length quarters
    = List.length (sorted_unique (map Year (rows df))) /\
    Forall (fun qs => StronglySorted Z.lt qs /\
                      Forall (fun q => 1 <= q <= 4) qs /\
                      (1 <= List.length qs <= 4)%nat)
           quarters /\
    Forall (fun t => List.length (y t) = List.length (x t)) (traces fig).
Proof.
  intros Hw fig. subst fig. rewrite well_formed_spec in Hw.
  unfold create_quarterly_chart. cbn [snd traces].
  set (rs := rows (assign_Quarter df)).
  set (years := sorted_unique (map q_Year (quarterly_agg rs))).
  exists (map (fun iy : nat * Z =>
                 map q_Quarter
                     (filter (fun q => q_Year q =? snd iy) (quarterly_agg rs)))
              (enumerate years)).
  split; [|split; [|split]].
  - rewrite flat_map_of_map. apply map_flat_map_ext.
    intros [i yr]. reflexivity.
  - rewrite length_map, enumerate_length. unfold years.
    rewrite quarterly_years. unfold rs. cbn [assign_Quarter rows].
    rewrite Year_set_Quarter. reflexivity.
  - apply Forall_forall. intros qs Hqs.
    apply in_map_iff in Hqs. destruct Hqs as [[i yr] [<- Hiy]].
    apply in_enumerate in Hiy. cbn [snd].
    unfold quarterly_agg in *.
    rewrite filter_map_comm, map_map. cbn [q_Year q_Quarter].
    destruct (year_series_buckets year_quarter_key rs yr) as [Hs Hb].
    assert (Hrange :
              Forall (fun q => 1 <= q <= 4)
                (map (fun g : Z * Z * list Row => snd (fst g))
                   (filter (fun g : Z * Z * list Row => fst (fst g) =? yr)
                      (groupby pair_compare year_quarter_key rs)))).
    { apply Forall_forall. intros q Hq. destruct (Hb q Hq) as [r [Hr Er]].
      unfold rs in Hr. cbn [assign_Quarter rows] in Hr.
      apply in_map_iff in Hr. destruct Hr as [r0 [<- Hr0]].
      unfold year_quarter_key in Er. cbn [set_Quarter Quarter Year] in Er.
      inversion Er; subst.
      pose proof (proj1 (calendar_ok_spec r0) (Hw r0 Hr0)) as (V & _).
      pose proof (valid_date_bounds _ V) as [Bm _].
      apply quarter_of_ceil, Bm. }
    split; [exact Hs|]. split; [exact Hrange|]. split.
    + unfold years in Hiy. rewrite In_sorted_unique, map_map in Hiy.
      cbn [q_Year] in Hiy.
      apply in_map_iff in Hiy. destruct Hiy as [g [Eg Hg]].
      rewrite length_map.
      assert (Hin : In g (filter
                            (fun g0 : Z * Z * list Row => fst (fst g0) =? yr)
                            (groupby pair_compare year_quarter_key rs))).
      { apply filter_In. split; [exact Hg | apply Z.eqb_eq, Eg]. }
      destruct (filter _ _); [destruct Hin | cbn [List.length]; lia].
    + exact (bounded_length_nat _ 4 ltac:(lia) Hs Hrange).
  - apply Forall_forall. intros t Ht.
    apply in_flat_map in Ht. destruct Ht as [[i yr] [_ Ht]].
    destruct Ht as [<- | [<- | []]]; cbn [x y];
      rewrite ?length_app, ?length_rev, ?length_map; reflexivity.
Qed.

Lemma quarterly_series_shape_witness :
  exists quarters : list (list Z),
    map x (traces (snd (create_quarterly_chart sample_df)))
    = flat_map (fun qs => [qs; qs ++ rev qs]) quarters /\
    List.length quarters
    = List.length (sorted_unique (map Year (rows sample_df))) /\
    Forall (fun qs => StronglySorted Z.lt qs /\
                      Forall (fun q => 1 <= q <= 4) qs /\
                      (1 <= List.length qs <= 4)%nat)
           quarters /\
    Forall (fun t => List.length (y t) = List.length (x t))
           (traces (snd (create_quarterly_chart sample_df))).
Proof. apply (quarterly_series_shape sample_df). reflexivity. Defined.

(** ** The selection *)

(** X12: the callback reads the selection as a set, and only through
    the years that occur in the dataset: two non-empty selections that
    hold the same years of the dataset, in any order, with or without
    repetitions or years that have no observation, give the same four
    outputs. *)
Theorem selection_read_as_set
    (df : DataFrame) (s1 s2 : list Z) (comparison_type : option string) :
  s1 <> [] -> s2 <> [] ->
  (forall y, In y (map Year (rows df)) -> (In y s1 <-> In y s2)) ->
  update_charts df (Some s1) comparison_type
  = update_charts df (Some s2) comparison_type.
Proof.
  intros H1 H2 Hsame.
  assert (E : filter_years df s1 = filter_years df s2).
  { unfold filter_years. f_equal. apply filter_ext_in. intros r Hr.
    specialize (Hsame (Year r) (in_map Year _ _ Hr)).
    destruct (isin (Year r) s1) eqn:E1, (isin (Year r) s2) eqn:E2;
      try reflexivity.
    - apply isin_In in E1. apply Hsame, isin_In in E1. congruence.
    - apply isin_In in E2. apply Hsame, isin_In in E2. congruence. }
  destruct s1 as [|a1 l1]; [congruence|].
  destruct s2 as [|a2 l2]; [congruence|].
  unfold update_charts. cbn [no_selection years_of]. rewrite E. reflexivity.
Qed.

Lemma selection_read_as_set_witness :
  update_charts sample_df (Some [2021; 2020; 2021; 1999]) (Some "monthly"%string)
  = update_charts sample_df (Some [2020; 2021]) (Some "monthly"%string).
Proof.
  apply selection_read_as_set; try discriminate.
  intros y Hy. cbn in Hy.
  destruct Hy as [<- | [<- | [<- | [<- | []]]]]; cbn; intuition.
Defined.

Lemma filter_all (f : Row -> bool) (l : list Row) :
  (forall r, In r l -> f r = true) -> filter f l = l.
Proof.
  induction l as [|r t IH]; intros H; [reflexivity|].
  cbn [filter]. rewrite (H r (or_introl eq_refl)). f_equal.
  apply IH. intros r0 Hr0. apply H. right. exact Hr0.
Qed.

(** X13: the default selection, all available years, filters nothing
    out: the callback then works on the whole dataset.  The default
    selection is empty, and the outputs are the placeholders, exactly
    when the dataset has no row. *)
Theorem default_selection_keeps_dataset
    (df : DataFrame) (comparison_type : option string) :
  filter_years df (available_years df) = df /\
  (no_selection (Some (available_years df)) = true <-> rows df = []) /\
  (rows df = [] ->
   update_charts df (Some (available_years df)) comparison_type
   = ((placeholder, placeholder, placeholder, Div "No data to display"), [])).
Proof.
  split; [|split].
  - destruct df as [cols rs]. unfold filter_years, available_years.
    cbn [columns rows]. f_equal. apply filter_all.
    intros r Hr. apply isin_In, In_sorted_unique, in_map, Hr.
  - unfold available_years. split.
    + intros H. destruct (rows df) as [|r t]; [reflexivity|].
      exfalso.
      assert (Hin : In (Year r) (sorted_unique (map Year (r :: t))))
        by (apply In_sorted_unique; left; reflexivity).
      destruct (sorted_unique (map Year (r :: t))); [exact Hin|].
      discriminate H.
    + intros ->. reflexivity.
  - intros E. unfold update_charts, available_years. rewrite E. reflexivity.
Qed.

Lemma default_selection_keeps_dataset_witness :
  filter_years sample_df (available_years sample_df) = sample_df /\
  update_charts (load_data []) (Some (available_years (load_data []))) None
  = ((placeholder, placeholder, placeholder, Div "No data to display"), []).
Proof.
  split.
  - exact (proj1 (default_selection_keeps_dataset sample_df None)).
  - exact (proj2 (proj2 (default_selection_keeps_dataset (load_data []) None))
                 eq_refl).
Defined.

(** X14: the statistics chart, the volatility chart and the summary
    table do not depend on the comparison type, although the quarterly
    chart assigns a column of the filtered frame before they are
    built. *)
Theorem secondary_outputs_ignore_type
    (df : DataFrame) (selected_years : option (list Z))
    (type1 type2 : option string) :
  let o1 := update_charts df selected_years type1 in
  let o2 := update_charts df selected_years type2 in
  stats_chart o1 = stats_chart o2 /\
  volatility_chart o1 = volatility_chart o2 /\
  summary_table o1 = summary_table o2.
Proof.
  intros o1 o2. subst o1 o2.
  destruct selected_years as [[|a l]|]; try (repeat split; reflexivity).
  destruct (secondary_outputs df a l type1) as (A1 & B1 & C1).
  destruct (secondary_outputs df a l type2) as (A2 & B2 & C2).
  rewrite A1, A2, B1, B2, C1, C2. repeat split; reflexivity.
Qed.

(** ** The table and the volatility chart *)

Lemma agg_std_round2_NaN (xs : list Q) :
  agg_std_round2 xs = NaN <-> (List.length xs < 2)%nat.
Proof.
  destruct xs as [|a [|b t]]; cbn [agg_std_round2 List.length].
  - split; [lia | reflexivity].
  - split; [lia | reflexivity].
  - split; [discriminate | lia].
Qed.

(** X15: a year's standard deviation is undefined exactly when the year
    has a single observation: the [Std Dev] cell of its table row is
    "-" if and only if its [Days] cell counts one day, and the bar of
    the volatility chart is missing for the same years. *)
Theorem single_day_years_have_no_deviation (rs : list Row) :
  Forall (fun sy : SummaryRow * fnum =>
            (s_Days (fst sy) = 1 <-> s_Std_Dev (fst sy) = NaN) /\
            (s_Days (fst sy) = 1 <->
             nth_error (table_row sy) 4 = Some (Td (CText "-") None)))
         (summary_with_yoy rs) /\
  map v_StdDev (volatility_agg rs) = map s_Std_Dev (summary_agg rs) /\
  map v_Year (volatility_agg rs) = map s_Year (summary_agg rs).
Proof.
  split; [|split].
  - apply Forall_forall. intros [s v] Hsv.
    assert (Hs : In s (summary_agg rs)).
    { rewrite <- summary_with_yoy_fst. apply (in_map fst) in Hsv. exact Hsv. }
    apply in_map_iff in Hs. destruct Hs as [[k g] [<- Hg]].
    apply (groupby_nonempty Z.compare Zcmp_eq) in Hg.
    cbn [fst s_Days s_Std_Dev snd].
    assert (Hd : Z.of_nat (List.length (prices g)) = 1 <->
                 agg_std_round2 (prices g) = NaN).
    { rewrite agg_std_round2_NaN. unfold prices. rewrite length_map.
      destruct g; [congruence|]. cbn [List.length]. lia. }
    split; [exact Hd|]. rewrite Hd.
    unfold table_row, iterrow, summary_columns.
    cbn [combine nth_error map s_Std_Dev]. cbn [render_cell].
    change (String.eqb "Std Dev" YoY) with false. cbn [andb].
    destruct (agg_std_round2 (prices g)) eqn:E; cbn [notna];
      split; intros H; try reflexivity; try congruence; try discriminate.
  - unfold volatility_agg, summary_agg. rewrite !map_map. reflexivity.
  - unfold volatility_agg, summary_agg. rewrite !map_map. reflexivity.
Qed.

(** X16: the summary table is rectangular: a header of eight headings
    followed by one row of eight cells per year of the frame, with no
    heading cell among them. *)
Theorem summary_table_is_rectangular (df : DataFrame) :
  exists header body,
    create_summary_table df = Table (header :: body) /\
    header = map Th summary_columns /\
    List.length header = 8%nat /\
    List.length body = List.length (sorted_unique (map Year (rows df))) /\
    Forall (fun tr => List.length tr = 8%nat /\
                      Forall (fun c => exists v col, c = Td v col) tr)
           body.
Proof.
  unfold create_summary_table.
  eexists _, _. split; [reflexivity|]. split; [reflexivity|].
  split; [reflexivity|]. split.
  - rewrite length_map. rewrite <- (length_map fst), summary_with_yoy_fst.
    rewrite <- summary_years, length_map. reflexivity.
  - apply Forall_forall. intros tr Htr. apply in_map_iff in Htr.
    destruct Htr as [[s v] [<- _]].
    unfold table_row, iterrow, summary_columns.
    cbn [combine map List.length]. split; [reflexivity|].
    repeat constructor; try (eexists _, _; reflexivity);
      unfold render_cell;
      match goal with
      | |- context [if ?b then _ else _] => destruct b
      end; try (eexists _, _; reflexivity);
      match goal with
      | |- context [if ?b then _ else _] => destruct b
      end; eexists _, _; reflexivity.
Qed.

(** ** The palette *)

Lemma small_index_cases (n : nat) :
  (n < 9)%nat ->
  n = 0%nat \/ n = 1%nat \/ n = 2%nat \/ n = 3%nat \/ n = 4%nat \/
  n = 5%nat \/ n = 6%nat \/ n = 7%nat \/ n = 8%nat.
Proof. lia. Qed.

Lemma color_at_mod (i : nat) : color_at Set1 i = color_at Set1 (i mod 9).
Proof.
  unfold color_at. change (List.length Set1) with 9%nat.
  rewrite Nat.Div0.mod_mod. reflexivity.
Qed.

(** X17: the nine palette colours are distinct and are taken in turn:
    the series at positions [i] and [j] get the same colour exactly
    when [i] and [j] differ by a multiple of nine. *)
Theorem colors_repeat_every_nine (i j : nat) :
  color_at Set1 i = color_at Set1 j <-> (i mod 9 = j mod 9)%nat.
Proof.
  split.
  - rewrite (color_at_mod i), (color_at_mod j).
    assert (Hi : (i mod 9 < 9)%nat) by (apply Nat.mod_upper_bound; lia).
    assert (Hj : (j mod 9 < 9)%nat) by (apply Nat.mod_upper_bound; lia).
    destruct (small_index_cases _ Hi)
      as [E|[E|[E|[E|[E|[E|[E|[E|E]]]]]]]]; rewrite E;
      destruct (small_index_cases _ Hj)
        as [F|[F|[F|[F|[F|[F|[F|[F|F]]]]]]]]; rewrite F;
      intros H; try reflexivity; vm_compute in H; discriminate H.
  - intros H. rewrite (color_at_mod i), (color_at_mod j), H. reflexivity.
Qed.

(** X18: the fill colour of a quarterly band is a well-formed
    translucent colour for every position: the palette entry
    [rgb(r,g,b)] becomes [rgba(r,g,b, 0.2)]. *)
Theorem band_fill_is_translucent (i : nat) :
  exists body : string,
    color_at Set1 i = ("rgb(" ++ body ++ ")")%string /\
    translucent (color_at Set1 i) = ("rgba(" ++ body ++ ", 0.2)")%string.
Proof.
  rewrite (color_at_mod i).
  assert (Hi : (i mod 9 < 9)%nat) by (apply Nat.mod_upper_bound; lia).
  destruct (small_index_cases _ Hi)
    as [E|[E|[E|[E|[E|[E|[E|[E|E]]]]]]]]; rewrite E.
  - exists "228,26,28"%string. split; reflexivity.
  - exists "55,126,184"%string. split; reflexivity.
  - exists "77,175,74"%string. split; reflexivity.
  - exists "152,78,163"%string. split; reflexivity.
  - exists "255,127,0"%string. split; reflexivity.
  - exists "255,255,51"%string. split; reflexivity.
  - exists "166,86,40"%string. split; reflexivity.
  - exists "247,129,191"%string. split; reflexivity.
  - exists "153,153,153"%string. split; reflexivity.
Qed.

(** ** Signs in the volatility chart *)

Lemma rint_sqrt_nonneg (r : Q) : 0 <= rint_sqrt r.
Proof.
  unfold rint_sqrt.
  assert (H : 0 <= Z.sqrt (Qnum r * Z.pos (Qden r)) / Z.pos (Qden r)).
  { apply Z.div_pos; [apply Z.sqrt_nonneg | lia]. }
  destruct (_ ?= _); [destruct (Z.even _)| |]; lia.
Qed.

Lemma round2_nonneg (p : Q) : (0 <= p)%Q -> (0 <= round2 p)%Q.
Proof.
  intros H. apply (round2_monotone 0 p) in H.
  change (round2 0) with (0 # 100)%Q in H.
  eapply Qle_trans; [|exact H]. unfold Qle. cbn. lia.
Qed.

Lemma Qsum_positive (xs : list Q) :
  xs <> [] -> (forall z, In z xs -> (0 < z)%Q) -> (0 < Qsum xs)%Q.
Proof.
  intros Hne Hpos. destruct xs as [|a t]; [congruence|].
  assert (Ht : (0 <= Qsum t)%Q).
  { clear Hne. assert (Hpt : forall z, In z t -> (0 < z)%Q)
      by (intros z Hz; apply Hpos; right; exact Hz).
    clear Hpos. induction t as [|b t IH]; unfold Qsum; cbn [fold_right].
    - lra.
    - fold (Qsum t).
      assert (0 < b)%Q by (apply Hpt; left; reflexivity).
      assert (0 <= Qsum t)%Q
        by (apply IH; intros z Hz; apply Hpt; right; exact Hz).
      lra. }
  unfold Qsum in *. cbn [fold_right].
  specialize (Hpos a (or_introl eq_refl)). lra.
Qed.

(** X19: the bars of the volatility chart are never negative; and when
    every price of the frame is positive, the points of its line are
    finite and not negative either. *)
Theorem volatility_values_not_negative (rs : list Row) :
  Forall (fun v => v_StdDev v = NaN \/ fle (Fin 0) (v_StdDev v))
         (volatility_agg rs) /\
  (Forall (fun r => (0 < Price r)%Q) rs ->
   Forall (fun v => fle (Fin 0) (v_RangePercent v)) (volatility_agg rs)).
Proof.
  split.
  - apply Forall_forall. intros v Hv. apply in_map_iff in Hv.
    destruct Hv as [[k g] [<- _]]. cbn [v_StdDev snd].
    destruct (prices g) as [|a [|b t]]; cbn [agg_std_round2]; auto.
    right. cbn [fle]. unfold round2_sqrt, Qle. cbn [Qnum Qden].
    pose proof (rint_sqrt_nonneg (variance (a :: b :: t) * 10000)). lia.
  - intros Hpos. rewrite Forall_forall in Hpos.
    apply Forall_forall. intros v Hv. apply in_map_iff in Hv.
    destruct Hv as [[k g] [<- Hg]]. cbn [v_RangePercent snd].
    pose proof (groupby_nonempty _ Zcmp_eq _ _ _ _ Hg) as Hne.
    apply (In_groupby Z.compare Zcmp_eq) in Hg. destruct Hg as [_ Eg].
    assert (Hp : forall z, In z (prices g) -> (0 < z)%Q).
    { intros z Hz. apply in_map_iff in Hz. destruct Hz as [r [<- Hr]].
      rewrite Eg in Hr. apply filter_In in Hr. apply Hpos, Hr. }
    pose proof (prices_nonempty _ Hne) as Hne'.
    destruct (prices g) as [|a t] eqn:Ep; [congruence|].
    pose proof (Qsum_positive (a :: t) Hne' Hp) as Hsum.
    pose proof (fold_min_le_max t a a (Qle_refl a)) as Hmm.
    assert (Hlen : (0 < Qlen (a :: t))%Q).
    { rewrite Qlen_cons. pose proof (Qlen_nonneg t). lra. }
    assert (Hmean : (0 < Qsum (a :: t) / Qlen (a :: t))%Q).
    { apply Qlt_shift_div_l; [exact Hlen|]. lra. }
    unfold agg_range_percent. cbn [agg_min agg_max agg_mean fsub fdiv].
    assert (Hs : Qsign (Qsum (a :: t) / Qlen (a :: t)) = Gt)
      by (apply Qgt_alt, Hmean).
    rewrite Hs. cbn [fmul fround2 fle]. apply round2_nonneg.
    apply Qmult_le_0_compat; [|lra].
    apply Qle_shift_div_l; [exact Hmean|]. lra.
Qed.

Lemma volatility_values_not_negative_witness :
  Forall (fun v => fle (Fin 0) (v_RangePercent v))
         (volatility_agg (rows sample_df)).
Proof.
  apply (proj2 (volatility_values_not_negative (rows sample_df))).
  repeat constructor.
Defined.

(** ** The secondary charts and the direction of change *)

Lemma stats_years (rs : list Row) :
  map st_Year (stats_agg rs) = sorted_unique (map Year rs).
Proof.
  unfold stats_agg. rewrite map_map. cbn [st_Year].
  exact (groupby_keys Z.compare year_key rs).
Qed.

(** X20: the two bar series of the statistics chart and the bar and
    line series of the volatility chart all stand on the years of the
    frame, each year once and in ascending order, with one value per
    year. *)
Theorem secondary_series_stand_on_years (df : DataFrame) :
  let years := sorted_unique (map Year (rows df)) in
  Forall (fun t => x t = years /\ List.length (y t) = List.length years)
         (traces (create_summary_stats_chart df)
          ++ traces (create_volatility_chart df)) /\
  List.length (traces (create_summary_stats_chart df)) = 2%nat /\
  List.length (traces (create_volatility_chart df)) = 2%nat /\
  StronglySorted Z.lt years.
Proof.
  intros years.
  pose proof (stats_years (rows df)) as Hs.
  pose proof (volatility_year_column (rows df)) as Hv.
  split; [|split; [reflexivity | split; [reflexivity|]]].
  - unfold create_summary_stats_chart, create_volatility_chart.
    cbn [traces app]. fold years in Hs, Hv.
    assert (Ls : List.length (stats_agg (rows df)) = List.length years)
      by (rewrite <- Hs, length_map; reflexivity).
    assert (Lv : List.length (volatility_agg (rows df)) = List.length years)
      by (rewrite <- Hv, length_map; reflexivity).
    repeat (apply Forall_cons; [cbn [x y]; rewrite length_map; split|]);
      try apply Forall_nil; assumption.
  - apply sorted_unique_sorted.
Qed.

Lemma round2_zero : round2 0 = (0 # 100)%Q.
Proof. reflexivity. Qed.

Lemma round2_positive (p : Q) : (0 < round2 p)%Q -> (0 < p)%Q.
Proof.
  intros H. apply Qnot_le_lt. intros C.
  apply (round2_monotone p 0) in C. rewrite round2_zero in C.
  assert (Z0 : (0 # 100 == 0)%Q) by reflexivity. lra.
Qed.

Lemma round2_negative (p : Q) : (round2 p < 0)%Q -> (p < 0)%Q.
Proof.
  intros H. apply Qnot_le_lt. intros C.
  apply (round2_monotone 0 p) in C. rewrite round2_zero in C.
  assert (Z0 : (0 # 100 == 0)%Q) by reflexivity. lra.
Qed.

(** The change of a row after the first, from the two means. *)
Lemma yoy_of_adjacent_rows (rs : list Row) (i : nat)
    (r1 r2 : SummaryRow) (v1 v2 : fnum) :
  nth_error (summary_with_yoy rs) i = Some (r1, v1) ->
  nth_error (summary_with_yoy rs) (S i) = Some (r2, v2) ->
  exists m1 m2 : Q,
    s_Mean r1 = Fin m1 /\ s_Mean r2 = Fin m2 /\
    v2 = fround2 (fmul (fdiv (fsub (Fin m2) (Fin m1)) (Fin m1)) (Fin 100)).
Proof.
  intros H1 H2. unfold summary_with_yoy in *.
  apply nth_error_combine in H1. destruct H1 as [Hr1 _].
  apply nth_error_combine in H2. destruct H2 as [Hr2 Hv2].
  destruct (summary_mean_Fin _ _ (nth_error_In _ _ Hr1)) as [m1 E1].
  destruct (summary_mean_Fin _ _ (nth_error_In _ _ Hr2)) as [m2 E2].
  exists m1, m2. split; [exact E1|]. split; [exact E2|].
  unfold yoy_change in Hv2. rewrite !nth_error_map in Hv2.
  rewrite (pct_change_nth _ i (s_Mean r1) (s_Mean r2)) in Hv2.
  - cbn [option_map] in Hv2. inversion Hv2.
    rewrite E1, E2. apply yoy_formula.
  - rewrite nth_error_map, Hr1. reflexivity.
  - rewrite nth_error_map, Hr2. reflexivity.
Qed.

(** X21: the colour of a year-over-year cell never contradicts the
    direction of the change.  For a row after the first whose
    predecessor has a positive mean: a green cell means that the
    (rounded) mean rose, a red cell that it fell, and equal means give
    the change 0.00, shown in black. *)
Theorem yoy_colour_follows_direction (rs : list Row) (i : nat)
    (r1 r2 : SummaryRow) (v1 v2 : fnum) (m1 m2 : Q) :
  nth_error (summary_with_yoy rs) i = Some (r1, v1) ->
  nth_error (summary_with_yoy rs) (S i) = Some (r2, v2) ->
  s_Mean r1 = Fin m1 -> s_Mean r2 = Fin m2 -> (0 < m1)%Q ->
  (yoy_cell v2 = Td (CPct v2) (Some "green"%string) -> (m1 < m2)%Q) /\
  (yoy_cell v2 = Td (CPct v2) (Some "red"%string) -> (m2 < m1)%Q) /\
  ((m1 == m2)%Q ->
   v2 = Fin (0 # 100) /\
   yoy_cell v2 = Td (CPct v2) (Some "black"%string)).
Proof.
  intros H1 H2 E1 E2 Hpos.
  destruct (yoy_of_adjacent_rows rs i r1 r2 v1 v2 H1 H2)
    as (m1' & m2' & F1 & F2 & Hv).
  rewrite E1 in F1. rewrite E2 in F2. inversion F1. inversion F2. subst m1' m2'.
  assert (Hnz : ~ (m1 == 0)%Q) by lra.
  rewrite (yoy_formula_nonzero m2 m1 Hnz) in Hv.
  set (c := ((m2 - m1) / m1 * 100)%Q) in *.
  assert (Hsign_pos : (0 < c)%Q -> (m1 < m2)%Q).
  { unfold c. intros Hc.
    assert (Hd : (0 < (m2 - m1) / m1)%Q) by lra.
    assert (Hm : (0 < (m2 - m1) / m1 * m1)%Q)
      by (apply Qmult_lt_0_compat; assumption).
    assert (Em : ((m2 - m1) / m1 * m1 == m2 - m1)%Q) by (field; exact Hnz).
    lra. }
  assert (Hsign_neg : (c < 0)%Q -> (m2 < m1)%Q).
  { unfold c. intros Hc.
    assert (Hd : (0 < - ((m2 - m1) / m1))%Q) by lra.
    assert (Hm : (0 < - ((m2 - m1) / m1) * m1)%Q)
      by (apply Qmult_lt_0_compat; assumption).
    assert (Em : (- ((m2 - m1) / m1) * m1 == m1 - m2)%Q)
      by (field; exact Hnz).
    lra. }
  subst v2. cbn [yoy_cell fgt0 flt0]. unfold Qsign.
  split; [|split].
  - destruct (Qcompare_spec (round2 c) 0) as [C | C | C];
      intros H; try discriminate H.
    apply Hsign_pos, round2_positive, C.
  - destruct (Qcompare_spec (round2 c) 0) as [C | C | C];
      intros H; try discriminate H.
    apply Hsign_neg, round2_negative, C.
  - intros Heq.
    assert (Ec : (c == 0)%Q) by (unfold c; rewrite <- Heq; field; exact Hnz).
    rewrite (round2_comp c 0 Ec). split; reflexivity.
Qed.

Lemma yoy_colour_follows_direction_witness : (1500 # 100 < 4000 # 100)%Q.
Proof.
  refine (proj1 (yoy_colour_follows_direction (rows sample_df) 0
                   _ _ NaN (Fin (16667 # 100)) (1500 # 100) (4000 # 100)
                   eq_refl eq_refl eq_refl eq_refl _) eq_refl).
  reflexivity.
Defined.
